(** * smsc: a client of the smsc.ru HTTP API (client.go)

    A shallow embedding of [client.go] and of the part of Go's
    [encoding/json] that [Send] relies on, followed by the properties of
    the client that its specification states.

    Layout:
    - [JSONText]: the JSON documents accepted by [json.Unmarshal]
      (lexer, parser, string unquoting);
    - [Reflect]: Go struct types, their values, the field table that
      [encoding/json] derives from a struct type, and decoding of a JSON
      document into a value;
    - [Smsc]: the package itself ([New], [Send], [Values], [WithCost],
      [Result], [Error]) and its properties.

    What is modelled of the environment:
    - a Go string is a [string], byte by byte; a Go [int] is a [Z], of 64
      bits where its range matters (the decoding of a JSON number);
    - the transport is known by the answer it gives to a request: a
      failure to post, a failure to read the body, or a body; every
      request made is appended to a record, so that "no network
      activity" can be said;
    - a nil pointer is [None]; calling a nil [Opt] and selecting a field
      through a nil [*MetaResult] panic;
    - [encoding/json] is modelled for the kinds of type that occur in
      the response structs (int, string, pointer, slice, struct with
      tags and embedded structs); the capacity of a slice is not
      modelled (an element past the length starts from the zero value),
      and the text of the library's error messages is not rendered. *)

From Stdlib Require Import ZArith NArith List String Ascii Bool Lia.
From Stdlib Require Import DecimalString DecimalZ DecimalPos.
From stdpp Require Import base option list strings gmap fin_maps.

Import ListNotations.
Local Open Scope string_scope.
Local Open Scope list_scope.
Local Open Scope Z_scope.

Set Warnings "-register-all".

(** ** JSON text *)

Module JSONText.

(** A JSON document.  A number keeps its literal text (the conversion
    depends on the Go type it is stored into); an object keeps its members
    in input order, duplicates included, because the decoder visits them
    one after the other. *)
Inductive json : Type :=
| JNull
| JBool (b : bool)
| JNumber (lit : string)
| JString (s : string)
| JArray (elems : list json)
| JObject (members : list (string * json)).

Definition code (c : ascii) : N := N_of_ascii c.

Definition between (lo hi n : N) : bool := ((lo <=? n) && (n <=? hi))%N.

(** scanner.go, [isSpace]. *)
Definition isSpace (c : ascii) : bool :=
  let n := code c in ((n =? 32) || (n =? 9) || (n =? 13) || (n =? 10))%N.

Definition isDigit (c : ascii) : bool := between 48 57 (code c).

Definition hexValue (c : ascii) : option N :=
  let n := code c in
  if between 48 57 n then Some (n - 48)%N
  else if between 97 102 n then Some (n - 87)%N
  else if between 65 70 n then Some (n - 55)%N
  else None.

(** *** UTF-8 *)

Definition byte (n : N) : ascii := ascii_of_N n.

(** utf8.EncodeRune for a rune that is not a surrogate and is at most
    U+10FFFF. *)
Definition encodeRune (r : N) : string :=
  (if r <? 128 then String (byte r) EmptyString
   else if r <? 2048 then
     String (byte (192 + r / 64)) (String (byte (128 + r mod 64)) EmptyString)
   else if r <? 65536 then
     String (byte (224 + r / 4096))
       (String (byte (128 + (r / 64) mod 64))
          (String (byte (128 + r mod 64)) EmptyString))
   else
     String (byte (240 + r / 262144))
       (String (byte (128 + (r / 4096) mod 64))
          (String (byte (128 + (r / 64) mod 64))
             (String (byte (128 + r mod 64)) EmptyString))))%N.

(** U+FFFD, unicode.ReplacementChar. *)
Definition replacementChar : N := 65533%N.

Definition cont (lo hi : N) (s : string) : option string :=
  match s with
  | String c r => if between lo hi (code c) then Some r else None
  | EmptyString => None
  end.

(** The number of bytes of the well-formed UTF-8 sequence at the head of
    [s], or [0] when there is none (utf8.DecodeRune then reports
    RuneError of width 1). *)
Definition utf8Width (s : string) : nat :=
  match s with
  | EmptyString => 0%nat
  | String c r =>
      let n := code c in
      let seq2 lo hi := match cont lo hi r with Some _ => 2%nat | None => 0%nat end in
      let seq3 lo hi :=
        match cont lo hi r with
        | Some r1 => match cont 128 191 r1 with Some _ => 3%nat | None => 0%nat end
        | None => 0%nat
        end in
      let seq4 lo hi :=
        match cont lo hi r with
        | Some r1 =>
            match cont 128 191 r1 with
            | Some r2 => match cont 128 191 r2 with Some _ => 4%nat | None => 0%nat end
            | None => 0%nat
            end
        | None => 0%nat
        end in
      (if n <? 128 then 1%nat
       else if between 194 223 n then seq2 128 191
       else if n =? 224 then seq3 160 191
       else if between 225 236 n then seq3 128 191
       else if n =? 237 then seq3 128 159
       else if between 238 239 n then seq3 128 191
       else if n =? 240 then seq4 144 191
       else if between 241 243 n then seq4 128 191
       else if n =? 244 then seq4 128 143
       else 0%nat)%N
  end.

(** decode.go, [unquoteBytes], last case: "coerce to well-formed UTF-8".
    [pending] counts the remaining bytes of a sequence already found
    well-formed. *)
Fixpoint coerceUTF8 (pending : nat) (s : string) : string :=
  match s with
  | EmptyString => EmptyString
  | String c r =>
      match pending with
      | S p => String c (coerceUTF8 p r)
      | O =>
          match utf8Width s with
          | O => encodeRune replacementChar +:+ coerceUTF8 0 r
          | S p => String c (coerceUTF8 p r)
          end
      end
  end.

(** *** Lexer *)

(** What a string literal is made of: a byte (written as such, or by a
    one-letter escape), or the UTF-16 code unit of a [\uXXXX] escape. *)
Inductive strUnit : Type :=
| UByte (c : ascii)
| UCode (u : N).

Inductive token : Type :=
| TLBrace | TRBrace | TLBracket | TRBracket | TColon | TComma
| TStr (units : list strUnit)
| TNum (lit : string)
| TTrue | TFalse | TNull.

(** The states of a number literal, as in scanner.go ([stateNeg],
    [state0], [state1], [stateDot], [stateDot0], [stateE], [stateESign],
    [stateE0]). *)
Inductive numPhase : Type :=
| PNeg | PZero | PInt | PDot | PFrac | PE | PESign | PExp.

Definition numComplete (p : numPhase) : bool :=
  match p with
  | PZero | PInt | PFrac | PExp => true
  | _ => false
  end.

Definition isE (c : ascii) : bool := ((code c =? 101) || (code c =? 69))%N.
Definition isSign (c : ascii) : bool := ((code c =? 43) || (code c =? 45))%N.
Definition isDot (c : ascii) : bool := (code c =? 46)%N.

(** The phase after reading [c] inside a number, [None] when [c] does not
    continue the literal. *)
Definition numNext (p : numPhase) (c : ascii) : option numPhase :=
  match p with
  | PNeg => if (code c =? 48)%N then Some PZero
            else if between 49 57 (code c) then Some PInt else None
  | PZero => if isDot c then Some PDot else if isE c then Some PE else None
  | PInt => if isDigit c then Some PInt
            else if isDot c then Some PDot else if isE c then Some PE else None
  | PDot => if isDigit c then Some PFrac else None
  | PFrac => if isDigit c then Some PFrac else if isE c then Some PE else None
  | PE => if isSign c then Some PESign else if isDigit c then Some PExp else None
  | PESign => if isDigit c then Some PExp else None
  | PExp => if isDigit c then Some PExp else None
  end.

Inductive lexState : Type :=
| LIdle
| LStr (acc : list strUnit)
| LEsc (acc : list strUnit)
| LHex (acc : list strUnit) (seen : nat) (u : N)
| LNum (p : numPhase) (acc : list ascii)
| LWord (rest : list ascii) (t : token).

Definition chars (s : string) : list ascii := list_ascii_of_string s.

(** A byte met between tokens. *)
Definition lexIdle (c : ascii) : option (lexState * list token) :=
  let n := code c in
  (if isSpace c then Some (LIdle, [])
   else if n =? 123 then Some (LIdle, [TLBrace])
   else if n =? 125 then Some (LIdle, [TRBrace])
   else if n =? 91 then Some (LIdle, [TLBracket])
   else if n =? 93 then Some (LIdle, [TRBracket])
   else if n =? 58 then Some (LIdle, [TColon])
   else if n =? 44 then Some (LIdle, [TComma])
   else if n =? 34 then Some (LStr [], [])
   else if n =? 45 then Some (LNum PNeg [c], [])
   else if n =? 48 then Some (LNum PZero [c], [])
   else if between 49 57 n then Some (LNum PInt [c], [])
   else if n =? 116 then Some (LWord (chars "rue") TTrue, [])
   else if n =? 102 then Some (LWord (chars "alse") TFalse, [])
   else if n =? 110 then Some (LWord (chars "ull") TNull, [])
   else None)%N.

(** The one-letter escapes of a string literal. *)
Definition escape (c : ascii) : option ascii :=
  let n := code c in
  (if n =? 34 then Some c
   else if n =? 92 then Some c
   else if n =? 47 then Some c
   else if n =? 98 then Some (byte 8)
   else if n =? 102 then Some (byte 12)
   else if n =? 110 then Some (byte 10)
   else if n =? 114 then Some (byte 13)
   else if n =? 116 then Some (byte 9)
   else None)%N.

Definition numToken (acc : list ascii) : token :=
  TNum (string_of_list_ascii (rev acc)).

Definition lexStep (st : lexState) (c : ascii) : option (lexState * list token) :=
  match st with
  | LIdle => lexIdle c
  | LStr acc =>
      (if code c =? 34 then Some (LIdle, [TStr (rev acc)])
       else if code c =? 92 then Some (LEsc acc, [])
       else if code c <? 32 then None
       else Some (LStr (UByte c :: acc), []))%N
  | LEsc acc =>
      if (code c =? 117)%N then Some (LHex acc 0 0%N, [])
      else match escape c with
           | Some b => Some (LStr (UByte b :: acc), [])
           | None => None
           end
  | LHex acc seen u =>
      match hexValue c with
      | Some h =>
          let u' := (16 * u + h)%N in
          match seen with
          | 3%nat => Some (LStr (UCode u' :: acc), [])
          | _ => Some (LHex acc (S seen) u', [])
          end
      | None => None
      end
  | LNum p acc =>
      match numNext p c with
      | Some p' => Some (LNum p' (c :: acc), [])
      | None =>
          if numComplete p then
            match lexIdle c with
            | Some (st', ts) => Some (st', numToken acc :: ts)
            | None => None
            end
          else None
      end
  | LWord rest t =>
      match rest with
      | [] => None
      | x :: rest' =>
          if Ascii.eqb x c then
            match rest' with
            | [] => Some (LIdle, [t])
            | _ => Some (LWord rest' t, [])
            end
          else None
      end
  end.

Fixpoint lex (st : lexState) (s : string) : option (list token) :=
  match s with
  | EmptyString =>
      match st with
      | LIdle => Some []
      | LNum p acc => if numComplete p then Some [numToken acc] else None
      | _ => None
      end
  | String c r =>
      match lexStep st c with
      | Some (st', ts) =>
          match lex st' r with
          | Some rest => Some (ts ++ rest)
          | None => None
          end
      | None => None
      end
  end.

(** *** Unquoting *)

Definition isHighSurrogate (u : N) : bool := between 55296 56319 u.
Definition isSurrogate (u : N) : bool := between 55296 57343 u.
Definition isLowSurrogate (u : N) : bool := between 56320 57343 u.

(** The bytes of a string literal before coercion: a [\u] escape is
    written out in UTF-8, a surrogate pair as the rune it encodes, a lone
    surrogate as U+FFFD. *)
Fixpoint unitsBytes (us : list strUnit) : string :=
  match us with
  | [] => EmptyString
  | UByte c :: rest => String c (unitsBytes rest)
  | UCode u :: rest =>
      if isSurrogate u then
        match rest with
        | UCode v :: rest' =>
            if isHighSurrogate u && isLowSurrogate v then
              encodeRune (65536 + (u - 55296) * 1024 + (v - 56320))%N
                +:+ unitsBytes rest'
            else encodeRune replacementChar +:+ unitsBytes rest
        | _ => encodeRune replacementChar +:+ unitsBytes rest
        end
      else encodeRune u +:+ unitsBytes rest
  end.

(** decode.go, [unquote]. *)
Definition unquote (us : list strUnit) : string := coerceUTF8 0 (unitsBytes us).

(** *** Parser *)

(** An open array or object with the members read so far (latest first);
    [FMember] is an object whose key [key] awaits its value. *)
Inductive frame : Type :=
| FArr (acc : list json)
| FObj (acc : list (string * json))
| FMember (acc : list (string * json)) (key : string).

(** What the parser is waiting for. *)
Inductive expect : Type :=
| EValue         (* a value: at the start, after a colon, after a comma of an array *)
| EValueOrClose  (* just after an opening bracket *)
| EKeyOrClose    (* just after an opening brace *)
| EKey           (* after a comma of an object *)
| EColon
| ESep           (* after a value inside an array or an object *)
| EDone (v : json).

(** scanner.go, [maxNestingDepth]. *)
Definition maxNestingDepth : N := 10000%N.

(** A value [v] is complete: hand it to the enclosing array or object. *)
Definition complete (v : json) (st : list frame) : option (expect * list frame) :=
  match st with
  | [] => Some (EDone v, [])
  | FArr acc :: st' => Some (ESep, FArr (v :: acc) :: st')
  | FMember acc k :: st' => Some (ESep, FObj ((k, v) :: acc) :: st')
  | FObj _ :: _ => None
  end.

Definition open (e : expect) (f : frame) (st : list frame) : option (expect * list frame) :=
  if (N.of_nat (length st) <? maxNestingDepth)%N then Some (e, f :: st) else None.

Definition startValue (t : token) (st : list frame) : option (expect * list frame) :=
  match t with
  | TStr u => complete (JString (unquote u)) st
  | TNum l => complete (JNumber l) st
  | TTrue => complete (JBool true) st
  | TFalse => complete (JBool false) st
  | TNull => complete JNull st
  | TLBracket => open EValueOrClose (FArr []) st
  | TLBrace => open EKeyOrClose (FObj []) st
  | _ => None
  end.

Definition closeArray (st : list frame) : option (expect * list frame) :=
  match st with
  | FArr acc :: st' => complete (JArray (rev acc)) st'
  | _ => None
  end.

Definition closeObject (st : list frame) : option (expect * list frame) :=
  match st with
  | FObj acc :: st' => complete (JObject (rev acc)) st'
  | _ => None
  end.

Definition startMember (u : list strUnit) (st : list frame) : option (expect * list frame) :=
  match st with
  | FObj acc :: st' => Some (EColon, FMember acc (unquote u) :: st')
  | _ => None
  end.

Definition parseStep (e : expect) (st : list frame) (t : token)
  : option (expect * list frame) :=
  match e with
  | EValue => startValue t st
  | EValueOrClose =>
      match t with
      | TRBracket => closeArray st
      | _ => startValue t st
      end
  | EKeyOrClose =>
      match t with
      | TRBrace => closeObject st
      | TStr u => startMember u st
      | _ => None
      end
  | EKey =>
      match t with
      | TStr u => startMember u st
      | _ => None
      end
  | EColon =>
      match t with
      | TColon => Some (EValue, st)
      | _ => None
      end
  | ESep =>
      match t with
      | TComma =>
          match st with
          | FArr _ :: _ => Some (EValue, st)
          | FObj _ :: _ => Some (EKey, st)
          | _ => None
          end
      | TRBracket => closeArray st
      | TRBrace => closeObject st
      | _ => None
      end
  | EDone _ => None
  end.

Fixpoint parseTokens (e : expect) (st : list frame) (ts : list token) : option json :=
  match ts with
  | [] => match e with EDone v => Some v | _ => None end
  | t :: ts' =>
      match parseStep e st t with
      | Some (e', st') => parseTokens e' st' ts'
      | None => None
      end
  end.

(** The document a text denotes; [None] where [json.Unmarshal] reports a
    [*json.SyntaxError] (its [checkValid] pass runs over the whole input
    before anything is stored). *)
Definition parse (s : string) : option json :=
  match lex LIdle s with
  | Some ts => parseTokens EValue [] ts
  | None => None
  end.

(** Rocq writes a double quote inside a string literal by doubling it;
    the JSON texts below are written with apostrophes instead, and
    [quoted] puts the double quotes back. *)
Definition quoted (s : string) : string :=
  string_of_list_ascii
    (map (fun c => if (code c =? 39)%N then byte 34 else c) (list_ascii_of_string s)).

End JSONText.

(** ** Go types, values and JSON decoding *)

Module Reflect.
Import JSONText.

(** A field of a struct declaration: its Go name (for an embedded field,
    the name of the embedded type), whether it is embedded, the name given
    by its [json:"..."] tag if it has one, and its type. *)
Record structField (T : Type) : Type := StructField {
  sfName : string;
  sfAnonymous : bool;
  sfTag : option string;
  sfType : T }.
Arguments StructField {T} _ _ _ _.
Arguments sfName {T} _.
Arguments sfAnonymous {T} _.
Arguments sfTag {T} _.
Arguments sfType {T} _.

(** The Go types that occur in the package's response structs. *)
Inductive gtype : Type :=
| KInt
| KString
| KPtr (elem : gtype)
| KSlice (elem : gtype)
| KStruct (name : string) (fields : list (structField gtype)).

(** Values: a pointer is nil or points to a value, a slice is nil or has
    elements, a struct has one value per declared field. *)
Inductive value : Type :=
| VInt (n : Z)
| VString (s : string)
| VPtr (p : option value)
| VSlice (s : option (list value))
| VStruct (fs : list value).

Fixpoint zero (t : gtype) : value :=
  match t with
  | KInt => VInt 0
  | KString => VString EmptyString
  | KPtr _ => VPtr None
  | KSlice _ => VSlice None
  | KStruct _ fs => VStruct (map (fun f => zero (sfType f)) fs)
  end.

(** reflect.StructField.IsExported, for ASCII names. *)
Definition isExported (name : string) : bool :=
  match name with
  | String c _ => between 65 90 (code c)
  | EmptyString => false
  end.

(** *** The field table (encode.go, [typeFields]) *)

(** An entry of the table: the JSON name, the index sequence that leads
    to the field from the outer struct, whether the name comes from a
    tag, and the declared type of the field. *)
Record field : Type := Field {
  name : string;
  index : list nat;
  tagged : bool;
  typ : gtype }.

Definition pointee (t : gtype) : gtype :=
  match t with
  | KPtr e => e
  | _ => t
  end.

Definition isStruct (t : gtype) : bool :=
  match t with
  | KStruct _ _ => true
  | _ => false
  end.

(** Every candidate field, embedded structs walked through: an embedded
    struct (or pointer to struct) without a tag contributes its own
    fields one level deeper; an unexported field is skipped. *)
Fixpoint collect (t : gtype) (prefix : list nat) {struct t} : list field :=
  match t with
  | KStruct _ fs =>
      (fix go (fs : list (structField gtype)) (i : nat) {struct fs} : list field :=
         match fs with
         | [] => []
         | f :: rest =>
             let later := go rest (S i) in
             let idx := prefix ++ [i] in
             let skipped :=
               if sfAnonymous f
               then negb (isExported (sfName f)) && negb (isStruct (pointee (sfType f)))
               else negb (isExported (sfName f)) in
             if skipped then later
             else
               match sfTag f, sfAnonymous f, isStruct (pointee (sfType f)) with
               | None, true, true => collect (pointee (sfType f)) idx ++ later
               | tag, _, _ =>
                   Field (default (sfName f) tag) idx (bool_decide (is_Some tag)) (sfType f)
                     :: later
               end
         end) fs 0%nat
  | _ => []
  end.

Definition depth (f : field) : nat := length (index f).

Definition minDepth (fs : list field) : nat :=
  match fs with
  | [] => 0%nat
  | f :: rest => fold_right (fun g d => Nat.min (depth g) d) (depth f) rest
  end.

(** encode.go, [dominantField], on the candidates [fs] that share one
    name: the least nested wins; among several at that level the tagged
    one wins; two tagged ones, or several with none tagged, hide each
    other and the name is dropped. *)
Definition dominantField (fs : list field) : option field :=
  let top := List.filter (fun f => (depth f =? minDepth fs)%nat) fs in
  match List.filter tagged top with
  | [f] => Some f
  | _ :: _ :: _ => None
  | [] => match top with
          | [f] => Some f
          | _ => None
          end
  end.

Definition sameName (n : string) (f : field) : bool := String.eqb (name f) n.

Definition typeFields (t : gtype) : list field :=
  let all := collect t [] in
  List.filter
    (fun f =>
       match dominantField (List.filter (sameName (name f)) all) with
       | Some g => bool_decide (index g = index f)
       | None => false
       end)
    all.

(** *** Matching an object key with a field *)

(** fold.go, [foldName], exact on the keys that can match an ASCII field
    name: ASCII letters are upper-cased, and the two non-ASCII runes that
    fold to an ASCII letter, U+017F (long s) and U+212A (Kelvin sign),
    become [S] and [K]. *)
Fixpoint foldName (s : string) : string :=
  match s with
  | EmptyString => EmptyString
  | String c r =>
      let n := code c in
      if between 97 122 n then String (byte (n - 32)) (foldName r)
      else
        match r with
        | String c1 r1 =>
            if ((n =? 197) && (code c1 =? 191))%N then String (byte 83) (foldName r1)
            else
              match r1 with
              | String c2 r2 =>
                  if ((n =? 226) && (code c1 =? 132) && (code c2 =? 170))%N
                  then String (byte 75) (foldName r2)
                  else String c (foldName r)
              | EmptyString => String c (foldName r)
              end
        | EmptyString => String c EmptyString
        end
  end.

(** decode.go, [object]: the field of exactly that name, otherwise the
    first field whose name is the same under folding. *)
Definition findField (fields : list field) (key : string) : option field :=
  match List.find (sameName key) fields with
  | Some f => Some f
  | None => List.find (fun f => String.eqb (foldName (name f)) (foldName key)) fields
  end.

(** *** Decoding *)

(** [*json.UnmarshalTypeError]; [what] is its [Value] ("bool", "string",
    "number", "number 1.5", "array", "object"). *)
Inductive decodeError : Type :=
| UnmarshalTypeError (what : string).

(** decode.go, [saveError]: the first error is kept, decoding goes on. *)
Definition saveError (first later : option decodeError) : option decodeError :=
  match first with
  | Some e => Some e
  | None => later
  end.

Definition minInt : Z := - 2 ^ 63.
Definition maxInt : Z := 2 ^ 63 - 1.

(** strconv.ParseInt(lit, 10, 64) on the text of a JSON number, for a Go
    [int] of 64 bits: a fraction or an exponent makes it fail, and so
    does a value out of range. *)
Definition parseInt (lit : string) : option Z :=
  match NilZero.int_of_string lit with
  | Some d =>
      let n := Z.of_int d in
      if (minInt <=? n) && (n <=? maxInt) then Some n else None
  | None => None
  end.

Definition store : Type := gtype -> value -> value * option decodeError.

(** decode.go, [indirect] with [decodingNull = false]: pointers are
    followed, a nil pointer being given a fresh zero value first. *)
Fixpoint indirect (t : gtype) (cur : value) (k : store) : value * option decodeError :=
  match t with
  | KPtr e =>
      let inner := match cur with VPtr (Some v) => v | _ => zero e end in
      let '(v, err) := indirect e inner k in
      (VPtr (Some v), err)
  | _ => k t cur
  end.

(** decode.go, [object], the walk along [f.index]: at each step a
    pointer is allocated if nil and followed, then the field is
    selected; [k] stores into the field reached. *)
Fixpoint storeAt (idx : list nat) (t : gtype) (v : value) (k : store)
  : value * option decodeError :=
  match idx with
  | [] => k t v
  | i :: rest =>
      let select (st : gtype) (sv : value) : value * option decodeError :=
        match st, sv with
        | KStruct _ fs, VStruct vs =>
            match fs !! i, vs !! i with
            | Some f, Some fv =>
                let '(fv', err) := storeAt rest (sfType f) fv k in
                (VStruct (<[i := fv']> vs), err)
            | _, _ => (sv, None)
            end
        | _, _ => (sv, None)
        end in
      match t, v with
      | KPtr e, VPtr p =>
          let '(sv, err) := select e (default (zero e) p) in
          (VPtr (Some sv), err)
      | _, _ => select t v
      end
  end.

Definition mismatch (what : string) (v : value) : value * option decodeError :=
  (v, Some (UnmarshalTypeError what)).

(** decode.go, [value]: store the document [j] into the location of type
    [t] that holds [cur]; the result is the new content of the location
    and the first error saved on the way. *)
Fixpoint decode (j : json) (t : gtype) (cur : value) {struct j}
  : value * option decodeError :=
  match j with
  | JNull =>
      (* a pointer or a slice becomes nil; anything else is left alone *)
      (match t with
       | KPtr _ => VPtr None
       | KSlice _ => VSlice None
       | _ => cur
       end, None)
  | JBool _ => indirect t cur (fun _ v => mismatch "bool" v)
  | JString s =>
      indirect t cur (fun bt v =>
        match bt with
        | KString => (VString s, None)
        | _ => mismatch "string" v
        end)
  | JNumber lit =>
      indirect t cur (fun bt v =>
        match bt with
        | KInt =>
            match parseInt lit with
            | Some n => (VInt n, None)
            | None => mismatch ("number " +:+ lit) v
            end
        | _ => mismatch "number" v
        end)
  | JArray js =>
      indirect t cur (fun bt v =>
        match bt with
        | KSlice e =>
            let old := match v with VSlice (Some l) => l | _ => [] end in
            let '(vs, err) :=
              (fix elems (js : list json) (old : list value) {struct js}
                 : list value * option decodeError :=
                 match js with
                 | [] => ([], None)
                 | j0 :: js' =>
                     let '(x, e1) := decode j0 e (hd (zero e) old) in
                     let '(xs, e2) := elems js' (tl old) in
                     (x :: xs, saveError e1 e2)
                 end) js old in
            (VSlice (Some vs), err)
        | _ => mismatch "array" v
        end)
  | JObject ms =>
      indirect t cur (fun bt v =>
        match bt with
        | KStruct _ _ =>
            (fix members (ms : list (string * json)) (v : value) {struct ms}
               : value * option decodeError :=
               match ms with
               | [] => (v, None)
               | (key, jv) :: ms' =>
                   let '(v1, e1) :=
                     match findField (typeFields bt) key with
                     | Some f => storeAt (index f) bt v (decode jv)
                     | None => (v, None)
                     end in
                   let '(v2, e2) := members ms' v1 in
                   (v2, saveError e1 e2)
               end) ms v
        | _ => mismatch "object" v
        end)
  end.

(** The loop of [decode] over the members of an object, by itself. *)
Fixpoint decodeMembers (bt : gtype) (ms : list (string * json)) (v : value)
  : value * option decodeError :=
  match ms with
  | [] => (v, None)
  | (key, jv) :: ms' =>
      let '(v1, e1) :=
        match findField (typeFields bt) key with
        | Some f => storeAt (index f) bt v (decode jv)
        | None => (v, None)
        end in
      let '(v2, e2) := decodeMembers bt ms' v1 in
      (v2, saveError e1 e2)
  end.

(** The loop of [decode] over the elements of an array stored into a
    slice of [e], by itself: [old] is what is left of the slice's former
    elements. *)
Fixpoint decodeElems (e : gtype) (js : list json) (old : list value)
  : list value * option decodeError :=
  match js with
  | [] => ([], None)
  | j0 :: js' =>
      let '(x, e1) := decode j0 e (hd (zero e) old) in
      let '(xs, e2) := decodeElems e js' (tl old) in
      (x :: xs, saveError e1 e2)
  end.

(** The errors of [json.Unmarshal]. *)
Inductive jsonError : Type :=
| SyntaxError
| TypeError (e : decodeError).

(** json.Unmarshal(data, &x) for a variable [x] of type [t] that holds
    [cur]: the new content of [x] and the error returned.  The syntax of
    the whole text is checked first; after that the first type mismatch
    is reported, the rest of the document still being stored. *)
Definition Unmarshal (data : string) (t : gtype) (cur : value)
  : value * option jsonError :=
  match parse data with
  | None => (cur, Some SyntaxError)
  | Some j =>
      let '(v, err) := decode j t cur in
      (v, TypeError <$> err)
  end.

End Reflect.

(** ** The package *)

Module Smsc.
Import JSONText Reflect.

(** *** The environment: HTTP and the record of what was sent *)

(** url.Values, a map from a key to the list of its values. *)
Abbreviation url_Values := (gmap string (list string)).

(** url.Values.Set: the key gets exactly this one value. *)
Definition url_Set (v : url_Values) (key val : string) : url_Values :=
  <[key := [val]]> v.

(** What a POST comes to, as far as [Send] can tell: [PostForm] fails,
    or reading the body fails, or a body is delivered. *)
Inductive response : Type :=
| PostFailed (reason : string)
| ReadFailed (reason : string)
| Body (b : string).

(** An [*http.Client], known by how it answers a form posted to a URL. *)
Record http_Client : Type := { PostForm : string -> url_Values -> response }.

Record request : Type := { reqURL : string; reqForm : url_Values }.

(** Computations that may use the network: they extend the list of the
    requests made so far. *)
Definition Net (A : Type) : Type := list request -> A * list request.

Definition ret {A : Type} (a : A) : Net A := fun log => (a, log).

Definition bind {A B : Type} (m : Net A) (k : A -> Net B) : Net B :=
  fun log => let '(a, log') := m log in k a log'.

Notation "'let*' x ':=' m 'in' k" := (bind m (fun x => k))
  (at level 10, x name, k at level 200).

Definition post (h : http_Client) (u : string) (form : url_Values) : Net response :=
  fun log => (PostForm h u form, log ++ [{| reqURL := u; reqForm := form |}]).

(** A call returns, or the goroutine panics. *)
Inductive panic : Type :=
| NilFuncCall
| NilPointerDereference.

Inductive outcome (A : Type) : Type :=
| Returned (a : A)
| Panicked (p : panic).
Arguments Returned {A} _.
Arguments Panicked {A} _.

(** strconv.FormatInt(n, 10), which is also what [%d] prints. *)
Definition FormatInt (n : Z) : string := NilZero.string_of_int (Z.to_int n).

(** *** Declarations of client.go *)

Definition DefaultURL : string := "https://smsc.ru/sys/send.php".

Record Config : Type := {
  Config_URL : string;
  Config_Login : string;
  Config_Password : string;
  Config_Client : option http_Client }.

(** A [Client] is one that [New] built: its transport is not nil. *)
Record Client : Type := {
  url : string;
  login : string;
  password : string;
  http : http_Client }.

Definition format : Type := Z.
Definition formatInlineVerbose : format := 0.
Definition formatInline : format := 1.
Definition formatXML : format := 2.
Definition formatJSON : format := 3.

Definition Cost : Type := Z.
Definition CostOmit : Cost := 0.
Definition CostWithoutSend : Cost := 1.
Definition CostCount : Cost := 2.
Definition CostCountBalance : Cost := 3.

Record message : Type := {
  message_Login : string;
  message_Password : string;
  message_Text : string;
  message_Phones : list string;
  message_Format : format;
  message_Cost : Cost }.

(** [Opt] is a function on a pointer to [message]: nil, or a function that updates the
    message it is given. *)
Definition Opt : Type := option (message -> message).

Record Phone : Type := {
  Phone_Phone : string;
  Phone_Mccmnc : string;
  Phone_Cost : string;
  Phone_Status : option string;
  Phone_Error : option string }.

(** The file holds two revisions of the response structs: in the first
    the count is tagged [count] and [Result] stops at [Balance]; in the
    second the count is tagged [cnt] and [Result] ends with [Phones].
    The message of the second revision has a [Charset] field as well,
    but neither its declaration nor its [Values] is in the file: the
    request side below is that of the first revision. *)
Inductive revision : Type :=
| CountRevision
| CntRevision.

(** [Result]; [Result_Phones] belongs to the second revision and stays
    nil in the first. *)
Record Result : Type := {
  Result_ID : Z;
  Result_Count : Z;
  Result_Cost : option string;
  Result_Balance : option string;
  Result_Phones : option (list Phone) }.

Record Error : Type := {
  Error_Code : Z;
  Error_Desc : string;
  Error_ID : option Z }.

(** The local type of [Send]: [struct { *Result; *Error }]. *)
Record MetaResult : Type := {
  MetaResult_Result : option Result;
  MetaResult_Error : option Error }.

(** The causes that [wrapErr] prefixes. *)
Inductive cause : Type :=
| TransportFailure (reason : string)
| DecodeFailure (e : jsonError).

(** The values of type [error] that the package returns:
    [ErrNoLoginPassword], the result of [fmt.Errorf("smsc: %s", err)],
    or an [*Error]. *)
Inductive error : Type :=
| ErrNoLoginPassword
| Wrapped (c : cause)
| ApiError (e : Error).

(** *** The struct declarations, as [encoding/json] sees them *)

Definition tagged_field (goName jsonName : string) (t : gtype) : structField gtype :=
  StructField goName false (Some jsonName) t.

Definition embedded (typeName : string) (t : gtype) : structField gtype :=
  StructField typeName true None t.

Definition Phone_type : gtype :=
  KStruct "Phone"
    [ tagged_field "Phone" "phone" KString;
      tagged_field "Mccmnc" "mccmnc" KString;
      tagged_field "Cost" "cost" KString;
      tagged_field "Status" "status" (KPtr KString);
      tagged_field "Error" "error" (KPtr KString) ].

Definition Result_type (rev : revision) : gtype :=
  KStruct "Result"
    match rev with
    | CountRevision =>
        [ tagged_field "ID" "id" KInt;
          tagged_field "Count" "count" KInt;
          tagged_field "Cost" "cost" (KPtr KString);
          tagged_field "Balance" "balance" (KPtr KString) ]
    | CntRevision =>
        [ tagged_field "ID" "id" KInt;
          tagged_field "Count" "cnt" KInt;
          tagged_field "Cost" "cost" (KPtr KString);
          tagged_field "Balance" "balance" (KPtr KString);
          tagged_field "Phones" "phones" (KSlice Phone_type) ]
    end.

Definition Error_type : gtype :=
  KStruct "Error"
    [ tagged_field "Code" "error_code" KInt;
      tagged_field "Desc" "error" KString;
      tagged_field "ID" "id" (KPtr KInt) ].

Definition MetaResult_type (rev : revision) : gtype :=
  KStruct "MetaResult"
    [ embedded "Result" (KPtr (Result_type rev));
      embedded "Error" (KPtr Error_type) ].

(** Reading a decoded value back as the Go struct it stands for. *)
Definition intOf (v : value) : Z :=
  match v with VInt n => n | _ => 0 end.

Definition stringOf (v : value) : string :=
  match v with VString s => s | _ => EmptyString end.

Definition ptrOf {A : Type} (f : value -> A) (v : value) : option A :=
  match v with VPtr (Some x) => Some (f x) | _ => None end.

Definition sliceOf {A : Type} (f : value -> A) (v : value) : option (list A) :=
  match v with VSlice (Some l) => Some (map f l) | _ => None end.

Definition fieldOf (i : nat) (v : value) : value :=
  match v with
  | VStruct vs => default (VPtr None) (vs !! i)
  | _ => VPtr None
  end.

Definition Phone_of (v : value) : Phone :=
  {| Phone_Phone := stringOf (fieldOf 0 v);
     Phone_Mccmnc := stringOf (fieldOf 1 v);
     Phone_Cost := stringOf (fieldOf 2 v);
     Phone_Status := ptrOf stringOf (fieldOf 3 v);
     Phone_Error := ptrOf stringOf (fieldOf 4 v) |}.

Definition Result_of (v : value) : Result :=
  {| Result_ID := intOf (fieldOf 0 v);
     Result_Count := intOf (fieldOf 1 v);
     Result_Cost := ptrOf stringOf (fieldOf 2 v);
     Result_Balance := ptrOf stringOf (fieldOf 3 v);
     Result_Phones := sliceOf Phone_of (fieldOf 4 v) |}.

Definition Error_of (v : value) : Error :=
  {| Error_Code := intOf (fieldOf 0 v);
     Error_Desc := stringOf (fieldOf 1 v);
     Error_ID := ptrOf intOf (fieldOf 2 v) |}.

Definition MetaResult_of (v : value) : MetaResult :=
  {| MetaResult_Result := ptrOf Result_of (fieldOf 0 v);
     MetaResult_Error := ptrOf Error_of (fieldOf 1 v) |}.

(** *** Functions of client.go *)

Section Package.

(** [http.DefaultClient]. *)
Variable http_DefaultClient : http_Client.

(** The revision of the response structs in use. *)
Variable rev : revision.

Definition isEmpty (s : string) : bool := String.eqb s EmptyString.

(** [New]. *)
Definition New (cfg : Config) : Net (option Client * option error) :=
  let URL := if isEmpty (Config_URL cfg) then DefaultURL else Config_URL cfg in
  if isEmpty (Config_Login cfg) || isEmpty (Config_Password cfg) then
    ret (None, Some ErrNoLoginPassword)
  else
    let client := default http_DefaultClient (Config_Client cfg) in
    ret (Some {| url := URL;
                 login := Config_Login cfg;
                 password := Config_Password cfg;
                 http := client |},
         None).

(** [wrapErr]. *)
Definition wrapErr (err : option cause) : option error :=
  match err with
  | None => None
  | Some c => Some (Wrapped c)
  end.

(** [message.Validate]. *)
Definition Validate (m : message) : option error := None.

(** [message.Values]. *)
Definition Values (m : message) : url_Values :=
  let v : url_Values :=
    <["phones" := message_Phones m]>
      (<["mes" := [message_Text m]]>
         (<["psw" := [message_Password m]]>
            (<["login" := [message_Login m]]> ∅))) in
  let v := if message_Format m =? 0 then v
           else url_Set v "fmt" (FormatInt (message_Format m)) in
  let v := if message_Cost m =? 0 then v
           else url_Set v "cost" (FormatInt (message_Cost m)) in
  v.

(** The assignment [m.Cost = c]. *)
Definition assignCost (c : Cost) (m : message) : message :=
  {| message_Login := message_Login m;
     message_Password := message_Password m;
     message_Text := message_Text m;
     message_Phones := message_Phones m;
     message_Format := message_Format m;
     message_Cost := c |}.

(** [WithCost]. *)
Definition WithCost (c : Cost) : Opt := Some (fun m => assignCost c m).

(** [for _, opt := range opts { opt(m) }]; calling a nil [Opt] panics. *)
Fixpoint applyOpts (opts : list Opt) (m : message) : outcome message :=
  match opts with
  | [] => Returned m
  | None :: _ => Panicked NilFuncCall
  | Some f :: rest => applyOpts rest (f m)
  end.

(** [var mr *MetaResult; json.Unmarshal(b, &mr)]: the pointer [mr]
    afterwards (nil or the struct it points to) and the error. *)
Definition decodeMetaResult (b : string) : option MetaResult * option jsonError :=
  let '(v, err) := Unmarshal b (KPtr (MetaResult_type rev)) (VPtr None) in
  (ptrOf MetaResult_of v, err).

(** The end of [Send], from the body [b] read off the response. *)
Definition respond (b : string) : outcome (option Result * option error) :=
  let '(mr, err) := decodeMetaResult b in
  match err with
  | Some e => Returned (None, wrapErr (Some (DecodeFailure e)))
  | None =>
      match mr with
      | None => Panicked NilPointerDereference   (* [mr.Error] with [mr == nil] *)
      | Some mr =>
          match MetaResult_Error mr with
          | Some e => Returned (None, Some (ApiError e))
          | None => Returned (MetaResult_Result mr, None)
          end
      end
  end.

(** The message that [Send] starts from. *)
Definition newMessage (c : Client) (text : string) (phones : list string) : message :=
  {| message_Login := login c;
     message_Password := password c;
     message_Text := text;
     message_Phones := phones;
     message_Format := formatJSON;
     message_Cost := 0 |}.

(** [Client.Send]. *)
Definition Send (c : Client) (text : string) (phones : list string) (opts : list Opt)
  : Net (outcome (option Result * option error)) :=
  match applyOpts opts (newMessage c text phones) with
  | Panicked p => ret (Panicked p)
  | Returned m =>
      match Validate m with
      | Some err => ret (Returned (None, Some err))
      | None =>
          let* resp := post (http c) (url c) (Values m) in
          match resp with
          | PostFailed reason =>
              ret (Returned (None, wrapErr (Some (TransportFailure reason))))
          | ReadFailed reason =>
              ret (Returned (None, wrapErr (Some (TransportFailure reason))))
          | Body b => ret (respond b)
          end
      end
  end.

(** [Result.String]. *)
Definition Result_String (r : Result) : string :=
  "OK - " +:+ FormatInt (Result_Count r) +:+ " SMS, ID - " +:+ FormatInt (Result_ID r).

(** [Error.Error]. *)
Definition Error_Error (e : Error) : string :=
  let s := "ERROR = " +:+ FormatInt (Error_Code e) +:+ " (" +:+ Error_Desc e +:+ ")" in
  match Error_ID e with
  | Some id => s +:+ ", ID - " +:+ FormatInt id
  | None => s
  end.

(** A transport that answers every request with the body [b]. *)
Definition serving (b : string) : http_Client :=
  {| PostForm := fun _ _ => Body b |}.

End Package.

(** *** Notions used in the properties *)

Definition sampleTransport : http_Client := serving (quoted "{}").

Definition sampleConfig (l p : string) : Config :=
  {| Config_URL := EmptyString;
     Config_Login := l;
     Config_Password := p;
     Config_Client := None |}.

Definition sampleClient : Client :=
  {| url := DefaultURL; login := "alice"; password := "secret";
     http := sampleTransport |}.

(** A client whose transport answers every request with the body [b]. *)
Definition servedBy (b : string) : Client :=
  {| url := DefaultURL; login := "alice"; password := "secret";
     http := serving b |}.

(** The message that [Send] serializes when its options are
    [WithCost k] for the [k] of [cs], in that order. *)
Definition sentMessage (c : Client) (text : string) (phones : list string)
  (cs : list Cost) : message :=
  assignCost (default 0 (last cs)) (newMessage c text phones).

(** The integer that a decimal numeral denotes. *)
Definition decimalValue (s : string) : option Z :=
  Z.of_int <$> NilZero.int_of_string s.

(** Two messages that agree on every field but, perhaps, the cost. *)
Definition sameButCost (m m' : message) : Prop :=
  message_Login m = message_Login m' /\
  message_Password m = message_Password m' /\
  message_Text m = message_Text m' /\
  message_Phones m = message_Phones m' /\
  message_Format m = message_Format m'.



(** The key of an object member is stored into a field of [Error]. *)
Definition touchesError (rev : revision) (key : string) : bool :=
  match findField (typeFields (MetaResult_type rev)) key with
  | Some f => bool_decide (head (index f) = Some 1%nat)
  | None => false
  end.

(** The key is [error_code] or [error], letter case apart (and with the
    long s and the Kelvin sign taken for [s] and [k]). *)
Definition namesErrorField (key : string) : bool :=
  String.eqb (foldName key) "ERROR_CODE" || String.eqb (foldName key) "ERROR".

(** The [ID] of a [*Result] value is still the zero value; the [ID] of
    an [*Error] value is still nil. *)
Definition idUnset (r : option value) : Prop :=
  forall x, r = Some x -> intOf (fieldOf 0 x) = 0.

Definition errorIDUnset (e : option value) : Prop :=
  forall x, e = Some x -> ptrOf intOf (fieldOf 2 x) = None.


(** [s] occurs in [t]. *)
Definition occursIn (s t : string) : bool :=
  bool_decide (is_Some (String.index 0 s t)).

(** The response bodies of the examples. *)
Definition successBody : string :=
  quoted "{'id':5,'cnt':2,'cost':'1.00','balance':'99.00'}".

Definition errorBodyWithID : string :=
  quoted "{'error_code':9,'error':'x','id':42}".

Definition errorBodyNullID : string :=
  quoted "{'error_code':3,'error':'bad login','id':null}".

Definition emptyObjectBody : string := "{}".

Definition nullBody : string := "null".

(** The text of a value of type [error], its [Error()]: the sentinel's
    own text, the text that [fmt.Errorf("smsc: %s", err)] builds from the
    text of its cause, or the rendering of an [*Error].  The text of a
    transport failure is the reason it carries; the text of an error of
    [encoding/json] is left to [jsonErrorText]. *)
Section ErrorText.

Variable jsonErrorText : jsonError -> string.

Definition causeText (c : cause) : string :=
  match c with
  | TransportFailure reason => reason
  | DecodeFailure e => jsonErrorText e
  end.

Definition errorText (e : error) : string :=
  match e with
  | ErrNoLoginPassword => "smsc: empty login or password"
  | Wrapped c => "smsc: " +:+ causeText c
  | ApiError e => Error_Error e
  end.

End ErrorText.

(** [s] starts with [p]. *)
Fixpoint hasPrefix (p s : string) : bool :=
  match p with
  | EmptyString => true
  | String a p' =>
      match s with
      | String b s' => Ascii.eqb a b && hasPrefix p' s'
      | EmptyString => false
      end
  end.

(** A transport on which every post fails, for the given reason. *)
Definition failing (reason : string) : http_Client :=
  {| PostForm := fun _ _ => PostFailed reason |}.

(** The outcome of [Send] once the transport has answered. *)
Definition answered (rev : revision) (a : response)
  : outcome (option Result * option error) :=
  match a with
  | PostFailed reason => Returned (None, Some (Wrapped (TransportFailure reason)))
  | ReadFailed reason => Returned (None, Some (Wrapped (TransportFailure reason)))
  | Body b => respond rev b
  end.

(** The key under which a revision reads the count. *)
Definition countKey (rev : revision) : string :=
  match rev with
  | CountRevision => "count"
  | CntRevision => "cnt"
  end.

(** The document of a per-phone entry that gives the number only, and
    the [Phone] it stands for. *)
Definition phoneDocument (p : string) : json := JObject [("phone", JString p)].

Definition phoneOnly (p : string) : Phone :=
  {| Phone_Phone := p;
     Phone_Mccmnc := EmptyString;
     Phone_Cost := EmptyString;
     Phone_Status := None;
     Phone_Error := None |}.

(** The key names a field of the merged struct. *)
Definition knownKey (rev : revision) (key : string) : bool :=
  bool_decide (is_Some (findField (typeFields (MetaResult_type rev)) key)).

(** *** The JSON model at a glance *)

Example parse_numbers :
  parse "-0.5e+3" = Some (JNumber "-0.5e+3") /\ parse "01" = None /\
  parse "1." = None /\ parse "-" = None /\ parse "1 2" = None.
Proof. repeat split; vm_compute; reflexivity. Qed.

Example parse_containers :
  parse (quoted " [1, {'a': [true, null], 'a': 'b'}, []] ")
  = Some (JArray
            [JNumber "1";
             JObject [("a", JArray [JBool true; JNull]); ("a", JString "b")];
             JArray []])
  /\ parse "[1,]" = None /\ parse (quoted "{'a':1,}") = None /\
  parse "[}" = None /\ parse EmptyString = None /\ parse "nul" = None.
Proof. repeat split; vm_compute; reflexivity. Qed.

Example parse_escapes :
  parse (quoted "'a\u0041\n\/'")
  = Some (JString (String "a" (String "A" (String (byte 10) (String "/" EmptyString)))))
  /\ parse (quoted "'\x'") = None.
Proof. repeat split; vm_compute; reflexivity. Qed.

(** A key matches a field name whatever the case of its letters; a
    number with a fraction or out of range is a type error, after which
    decoding goes on; [null] leaves an int alone. *)
Example decode_Error_examples :
  Unmarshal (quoted "{'ERROR_code': 7, 'Error': 'e'}") Error_type (zero Error_type)
  = (VStruct [VInt 7; VString "e"; VPtr None], None) /\
  Unmarshal (quoted "{'error_code': 1.5, 'error': 'e'}") Error_type (zero Error_type)
  = (VStruct [VInt 0; VString "e"; VPtr None],
     Some (TypeError (UnmarshalTypeError "number 1.5"))) /\
  Unmarshal (quoted "{'error_code': 9223372036854775808}") Error_type (zero Error_type)
  = (VStruct [VInt 0; VString EmptyString; VPtr None],
     Some (TypeError (UnmarshalTypeError "number 9223372036854775808"))) /\
  Unmarshal (quoted "{'error_code': 4, 'error_code': null, 'id': 8}") Error_type
    (zero Error_type)
  = (VStruct [VInt 4; VString EmptyString; VPtr (Some (VInt 8))], None).
Proof. repeat split; vm_compute; reflexivity. Qed.

(** *** Properties: construction *)

Lemma isEmpty_true (s : string) : isEmpty s = true <-> s = EmptyString.
Proof. unfold isEmpty. apply String.eqb_eq. Qed.

Lemma isEmpty_false (s : string) : isEmpty s = false <-> s <> EmptyString.
Proof. unfold isEmpty. apply String.eqb_neq. Qed.

(** C1: when login and password are both non-empty, [New] returns a
    client (holding the login, the password, the URL or its default, the
    transport or its default) and a nil error; when either is empty it
    returns no client and [ErrNoLoginPassword]; in both cases the record
    of requests is left as it was. *)
Theorem New_credentials (dc : http_Client) (cfg : Config) (log : list request) :
  (Config_Login cfg <> EmptyString /\ Config_Password cfg <> EmptyString ->
   exists c : Client,
     New dc cfg log = ((Some c, None), log) /\
     login c = Config_Login cfg /\
     password c = Config_Password cfg /\
     url c = (if isEmpty (Config_URL cfg) then DefaultURL else Config_URL cfg) /\
     http c = default dc (Config_Client cfg))
  /\
  (Config_Login cfg = EmptyString \/ Config_Password cfg = EmptyString ->
   New dc cfg log = ((None, Some ErrNoLoginPassword), log)).
Proof.
  unfold New, ret. split.
  - intros [Hl Hp].
    apply isEmpty_false in Hl. apply isEmpty_false in Hp.
    rewrite Hl, Hp. simpl. eexists. repeat split.
  - intros [Hl | Hp].
    + apply isEmpty_true in Hl. rewrite Hl. reflexivity.
    + apply isEmpty_true in Hp. rewrite Hp, orb_true_r. reflexivity.
Qed.

Lemma New_credentials_witness :
  (exists c : Client,
     New sampleTransport (sampleConfig "alice" "secret") [] = ((Some c, None), []) /\
     login c = "alice" /\ password c = "secret" /\
     url c = DefaultURL /\ http c = sampleTransport)
  /\ New sampleTransport (sampleConfig "alice" EmptyString) []
     = ((None, Some ErrNoLoginPassword), []).
Proof.
  split.
  - apply (proj1 (New_credentials sampleTransport (sampleConfig "alice" "secret") [])).
    simpl. split; discriminate.
  - apply (proj2 (New_credentials sampleTransport (sampleConfig "alice" EmptyString) [])).
    simpl. right. reflexivity.
Defined.

(** *** Properties: the outgoing form *)

Lemma assignCost_id (m : message) : assignCost (message_Cost m) m = m.
Proof. destruct m. reflexivity. Qed.

Lemma assignCost_assignCost (a b : Cost) (m : message) :
  assignCost b (assignCost a m) = assignCost b m.
Proof. reflexivity. Qed.

(** The options built by [WithCost] never panic, and what they leave is
    the message with the cost of the last of them. *)
Lemma applyOpts_WithCost (cs : list Cost) (m : message) :
  applyOpts (map WithCost cs) m
  = Returned (assignCost (default (message_Cost m) (last cs)) m).
Proof.
  revert m. induction cs as [| c cs IH]; intros m.
  - simpl. rewrite assignCost_id. reflexivity.
  - simpl map. simpl applyOpts. rewrite IH. rewrite last_cons.
    destruct (last cs); reflexivity.
Qed.

(** [Send] with such options: one request goes out, carrying the form of
    [sentMessage]; the outcome is decided by the answer. *)
Lemma Send_WithCost (rev : revision) (c : Client) (text : string)
  (phones : list string) (cs : list Cost) (log : list request) :
  Send rev c text phones (map WithCost cs) log
  = (match PostForm (http c) (url c) (Values (sentMessage c text phones cs)) with
     | PostFailed reason => Returned (None, Some (Wrapped (TransportFailure reason)))
     | ReadFailed reason => Returned (None, Some (Wrapped (TransportFailure reason)))
     | Body b => respond rev b
     end,
     log ++ [{| reqURL := url c; reqForm := Values (sentMessage c text phones cs) |}]).
Proof.
  unfold Send. rewrite applyOpts_WithCost. simpl.
  unfold bind, post, ret, sentMessage. simpl.
  destruct (PostForm _ _ _); reflexivity.
Qed.

Lemma Values_login (m : message) : Values m !! "login" = Some [message_Login m].
Proof.
  unfold Values, url_Set.
  destruct (message_Format m =? 0), (message_Cost m =? 0); by simplify_map_eq.
Qed.

Lemma Values_psw (m : message) : Values m !! "psw" = Some [message_Password m].
Proof.
  unfold Values, url_Set.
  destruct (message_Format m =? 0), (message_Cost m =? 0); by simplify_map_eq.
Qed.

Lemma Values_mes (m : message) : Values m !! "mes" = Some [message_Text m].
Proof.
  unfold Values, url_Set.
  destruct (message_Format m =? 0), (message_Cost m =? 0); by simplify_map_eq.
Qed.

Lemma Values_phones (m : message) : Values m !! "phones" = Some (message_Phones m).
Proof.
  unfold Values, url_Set.
  destruct (message_Format m =? 0), (message_Cost m =? 0); by simplify_map_eq.
Qed.

Lemma Values_fmt (m : message) :
  Values m !! "fmt"
  = if message_Format m =? 0 then None else Some [FormatInt (message_Format m)].
Proof.
  unfold Values, url_Set.
  destruct (message_Format m =? 0), (message_Cost m =? 0); by simplify_map_eq.
Qed.

Lemma Values_cost (m : message) :
  Values m !! "cost"
  = if message_Cost m =? 0 then None else Some [FormatInt (message_Cost m)].
Proof.
  unfold Values, url_Set.
  destruct (message_Format m =? 0), (message_Cost m =? 0); by simplify_map_eq.
Qed.

(** [FormatInt] writes its argument in decimal. *)
Lemma FormatInt_decimal (n : Z) : decimalValue (FormatInt n) = Some n.
Proof.
  unfold decimalValue, FormatInt.
  rewrite NilZero.isi.
  - simpl. f_equal. apply DecimalZ.of_to.
  - destruct n; simpl; [discriminate | | discriminate].
    intros [= H]. exact (DecimalPos.Unsigned.to_uint_nonnil _ H).
  - destruct n; simpl; [discriminate | discriminate |].
    intros [= H]. exact (DecimalPos.Unsigned.to_uint_nonnil _ H).
Qed.

(** C3: for every text and every phone list (and every sequence of
    cost options), the form that [Send] posts has the keys [login], [psw]
    and [mes] with the client's login, the client's password and the
    text, and under [phones] exactly the given phones, in their order. *)
Theorem Send_form_fields (rev : revision) (c : Client) (text : string)
  (phones : list string) (cs : list Cost) (log : list request) :
  exists form : url_Values,
    snd (Send rev c text phones (map WithCost cs) log)
      = log ++ [{| reqURL := url c; reqForm := form |}] /\
    form !! "login" = Some [login c] /\
    form !! "psw" = Some [password c] /\
    form !! "mes" = Some [text] /\
    form !! "phones" = Some phones.
Proof.
  exists (Values (sentMessage c text phones cs)).
  rewrite Send_WithCost. simpl.
  rewrite Values_login, Values_psw, Values_mes, Values_phones.
  repeat split.
Qed.

(** C4: the form has no [cost] key exactly when no cost option was given
    or the last one given was [CostOmit]; when the last one carried a
    non-zero value, [cost] is present with that value in decimal. *)
Theorem Send_form_cost (rev : revision) (c : Client) (text : string)
  (phones : list string) (cs : list Cost) (log : list request) :
  exists form : url_Values,
    snd (Send rev c text phones (map WithCost cs) log)
      = log ++ [{| reqURL := url c; reqForm := form |}] /\
    (form !! "cost" = None <-> cs = [] \/ last cs = Some CostOmit) /\
    (forall k : Cost, last cs = Some k -> k <> CostOmit ->
       form !! "cost" = Some [FormatInt k] /\ decimalValue (FormatInt k) = Some k).
Proof.
  exists (Values (sentMessage c text phones cs)).
  rewrite Send_WithCost. simpl. split; [reflexivity |].
  rewrite Values_cost. unfold sentMessage, CostOmit. simpl.
  destruct (last cs) as [k |] eqn:Hlast; simpl.
  - destruct (Z.eqb_spec k 0) as [-> | Hk].
    + split; [split; auto |]. intros k [= <-] Hne. congruence.
    + split.
      * split; [discriminate |]. intros [-> | [= ->]]; [discriminate | congruence].
      * intros k' [= <-] _. split; [reflexivity | apply FormatInt_decimal].
  - apply last_None in Hlast. split; [split; auto | discriminate].
Qed.

Lemma Send_form_cost_witness :
  exists form : url_Values,
    snd (Send CntRevision sampleClient "hello" ["79990001122"]
           (map WithCost [CostWithoutSend; CostCountBalance]) [])
      = [{| reqURL := DefaultURL; reqForm := form |}] /\
    form !! "cost" = Some ["3"].
Proof.
  destruct (Send_form_cost CntRevision sampleClient "hello" ["79990001122"]
              [CostWithoutSend; CostCountBalance] []) as (form & Hlog & _ & Hsome).
  exists form. split; [exact Hlog |].
  apply (Hsome CostCountBalance); [reflexivity | discriminate].
Defined.

(** C5: [Values] writes the [fmt] key only for a format other than the
    zero one, then with the format in decimal; [Send] always sets the
    format to [formatJSON], so the form it posts (whatever the cost
    options) has [fmt] with the value 3. *)
Theorem Send_form_fmt :
  (forall m : message,
     Values m !! "fmt" = None <-> message_Format m = formatInlineVerbose) /\
  (forall m : message,
     message_Format m <> formatInlineVerbose ->
     Values m !! "fmt" = Some [FormatInt (message_Format m)]) /\
  (forall (rev : revision) (c : Client) (text : string) (phones : list string)
          (cs : list Cost) (log : list request),
     exists form : url_Values,
       snd (Send rev c text phones (map WithCost cs) log)
         = log ++ [{| reqURL := url c; reqForm := form |}] /\
       form !! "fmt" = Some ["3"]).
Proof.
  unfold formatInlineVerbose. split; [| split].
  - intros m. rewrite Values_fmt.
    destruct (Z.eqb_spec (message_Format m) 0); split; congruence.
  - intros m H. rewrite Values_fmt.
    destruct (Z.eqb_spec (message_Format m) 0); [congruence | reflexivity].
  - intros rev c text phones cs log.
    exists (Values (sentMessage c text phones cs)).
    rewrite Send_WithCost. simpl. split; [reflexivity |].
    rewrite Values_fmt. reflexivity.
Qed.

Lemma Send_form_fmt_witness :
  Values (newMessage sampleClient "hello" []) !! "fmt" = Some ["3"].
Proof.
  apply (proj1 (proj2 Send_form_fmt) (newMessage sampleClient "hello" [])).
  discriminate.
Defined.

(** *** Properties: options *)

Lemma message_ext (m m' : message) :
  sameButCost m m' -> message_Cost m = message_Cost m' -> m = m'.
Proof.
  destruct m, m'. unfold sameButCost. simpl.
  intros (-> & -> & -> & -> & ->) ->. reflexivity.
Qed.




(** *** Properties: the field table of the merged struct *)

(** Both [Result] and [Error] tag a field [id]; the two meet at the same
    depth of [MetaResult], both tagged, so neither is kept: the table has
    no entry for [id]. *)
Lemma typeFields_MetaResult_names (rev : revision) :
  map name (typeFields (MetaResult_type rev))
  = match rev with
    | CountRevision => ["count"; "cost"; "balance"; "error_code"; "error"]
    | CntRevision => ["cnt"; "cost"; "balance"; "phones"; "error_code"; "error"]
    end.
Proof. destruct rev; vm_compute; reflexivity. Qed.

Lemma findField_MetaResult_id (rev : revision) :
  findField (typeFields (MetaResult_type rev)) "id" = None.
Proof. destruct rev; vm_compute; reflexivity. Qed.

(** Decoded on their own, [Result] and [Error] do have the field. *)
Lemma findField_Result_id (rev : revision) :
  index <$> findField (typeFields (Result_type rev)) "id" = Some [0%nat].
Proof. destruct rev; vm_compute; reflexivity. Qed.

Lemma findField_Error_id :
  index <$> findField (typeFields Error_type) "id" = Some [2%nat].
Proof. vm_compute; reflexivity. Qed.

(** Every entry leads into [Result] or into [Error], and none to the
    [ID] of either. *)
Lemma typeFields_MetaResult_index (rev : revision) (f : field) :
  In f (typeFields (MetaResult_type rev)) ->
  (exists b, index f = [0%nat; b] /\ b <> 0%nat) \/
  (exists b, index f = [1%nat; b] /\ b <> 2%nat).
Proof.
  destruct rev; vm_compute; intros H;
    repeat (destruct H as [<- | H];
            [first [left; eexists; split; [reflexivity | discriminate]
                   | right; eexists; split; [reflexivity | discriminate]] |]);
    destruct H.
Qed.

Ltac decide_key key :=
  unfold sameName; cbn [List.find name];
  repeat match goal with
  | |- context [String.eqb ?lit key] =>
      destruct (String.eqb_spec lit key) as [<- | ?]; [vm_compute; reflexivity |]
  end;
  cbn [List.find name];
  generalize (foldName key); intros F;
  repeat match goal with
  | |- context [String.eqb (foldName ?lit) F] =>
      let v := eval vm_compute in (foldName lit) in
      change (foldName lit) with v;
      rewrite (String.eqb_sym v F);
      destruct (String.eqb_spec F v) as [-> | ?]; [vm_compute; reflexivity |]
  end;
  repeat match goal with
  | H : F <> ?v |- _ => apply String.eqb_neq in H; rewrite ?H; clear H
  end;
  reflexivity.

(** The keys stored into [Error] are those that name [error_code] or
    [error]. *)
Lemma touchesError_names (rev : revision) (key : string) :
  touchesError rev key = namesErrorField key.
Proof.
  unfold touchesError, namesErrorField, findField.
  destruct rev.
  - let l := eval vm_compute in (typeFields (MetaResult_type CountRevision)) in
    change (typeFields (MetaResult_type CountRevision)) with l.
    decide_key key.
  - let l := eval vm_compute in (typeFields (MetaResult_type CntRevision)) in
    change (typeFields (MetaResult_type CntRevision)) with l.
    decide_key key.
Qed.

Lemma existsb_touchesError (rev : revision) (ms : list (string * json)) :
  existsb (fun kv => touchesError rev (fst kv)) ms
  = existsb (fun kv => namesErrorField (fst kv)) ms.
Proof.
  induction ms as [| kv ms IH]; simpl; [reflexivity |].
  rewrite IH, touchesError_names. reflexivity.
Qed.

(** *** Properties: decoding into the merged struct *)

Lemma decode_object_struct (ms : list (string * json)) (n : string)
  (fs : list (structField gtype)) (v : value) :
  decode (JObject ms) (KStruct n fs) v = decodeMembers (KStruct n fs) ms v.
Proof.
  cbn [decode indirect].
  revert v. induction ms as [| [key jv] ms IH]; intros v.
  - reflexivity.
  - cbn [decodeMembers].
    match goal with
    | |- _ = (let '(_, _) := ?x in _) => destruct x as [v1 e1] eqn:E
    end.
    rewrite <- IH. reflexivity.
Qed.

(** Storing through a pointer leaves it non-nil. *)
Lemma storeAt_ptr (i : nat) (rest : list nat) (e : gtype) (p : option value) (k : store) :
  exists sv err, storeAt (i :: rest) (KPtr e) (VPtr p) k = (VPtr (Some sv), err).
Proof.
  cbn [storeAt].
  match goal with
  | |- context [let '(_, _) := ?x in _] => destruct x as [sv err]
  end.
  eexists _, _. reflexivity.
Qed.

(** Storing into the field [b] of a struct behind a pointer changes no
    other field of it. *)
Lemma storeAt_ptr_others (b : nat) (t : gtype) (p : option value) (k : store)
  (sv : value) (err : option decodeError) (i : nat) :
  storeAt [b] (KPtr t) (VPtr p) k = (VPtr (Some sv), err) ->
  i <> b ->
  fieldOf i sv = fieldOf i (default (zero t) p).
Proof.
  cbn [storeAt]. intros H Hne.
  destruct t as [| | | | n fs]; try (injection H as <- _; reflexivity).
  destruct (default _ p) as [| | | | vs] eqn:Hv; try (injection H as <- _; reflexivity).
  destruct (fs !! b) as [f |]; [| injection H as <- _; reflexivity].
  destruct (vs !! b) as [fv |]; [| injection H as <- _; reflexivity].
  destruct (k (sfType f) fv) as [fv' e1]. injection H as <- _.
  unfold fieldOf. rewrite list_lookup_insert_ne by auto. reflexivity.
Qed.

Lemma storeAt_Result (rev : revision) (b : nat) (r e : option value) (k : store) :
  exists sv err,
    storeAt [0%nat; b] (MetaResult_type rev) (VStruct [VPtr r; VPtr e]) k
    = (VStruct [VPtr (Some sv); VPtr e], err) /\
    forall i, i <> b -> fieldOf i sv = fieldOf i (default (zero (Result_type rev)) r).
Proof.
  destruct (storeAt_ptr b [] (Result_type rev) r k) as (sv & err & H).
  exists sv, err. split.
  - change (storeAt [0%nat; b] (MetaResult_type rev) (VStruct [VPtr r; VPtr e]) k)
      with (let '(fv, err) := storeAt [b] (KPtr (Result_type rev)) (VPtr r) k in
            (VStruct (<[0%nat := fv]> [VPtr r; VPtr e]), err)).
    rewrite H. reflexivity.
  - intros i Hi. exact (storeAt_ptr_others _ _ _ _ _ _ i H Hi).
Qed.

Lemma storeAt_Error (rev : revision) (b : nat) (r e : option value) (k : store) :
  exists sv err,
    storeAt [1%nat; b] (MetaResult_type rev) (VStruct [VPtr r; VPtr e]) k
    = (VStruct [VPtr r; VPtr (Some sv)], err) /\
    forall i, i <> b -> fieldOf i sv = fieldOf i (default (zero Error_type) e).
Proof.
  destruct (storeAt_ptr b [] Error_type e k) as (sv & err & H).
  exists sv, err. split.
  - change (storeAt [1%nat; b] (MetaResult_type rev) (VStruct [VPtr r; VPtr e]) k)
      with (let '(fv, err) := storeAt [b] (KPtr Error_type) (VPtr e) k in
            (VStruct (<[1%nat := fv]> [VPtr r; VPtr e]), err)).
    rewrite H. reflexivity.
  - intros i Hi. exact (storeAt_ptr_others _ _ _ _ _ _ i H Hi).
Qed.

Lemma idUnset_stored (rev : revision) (r : option value) (sv : value) :
  idUnset r ->
  fieldOf 0 sv = fieldOf 0 (default (zero (Result_type rev)) r) ->
  idUnset (Some sv).
Proof.
  intros Hr Hsv x [= <-]. rewrite Hsv.
  destruct r as [x |]; [exact (Hr x eq_refl) | destruct rev; reflexivity].
Qed.

Lemma errorIDUnset_stored (e : option value) (sv : value) :
  errorIDUnset e ->
  fieldOf 2 sv = fieldOf 2 (default (zero Error_type) e) ->
  errorIDUnset (Some sv).
Proof.
  intros He Hsv x [= <-]. rewrite Hsv.
  destruct e as [x |]; [exact (He x eq_refl) | reflexivity].
Qed.

(** The members of an object keep the shape of the merged struct; its
    [Error] pointer ends up non-nil exactly when it was so before or some
    key is stored into [Error]; and no member reaches the [ID] of
    [Result] or of [Error]. *)
Lemma decodeMembers_MetaResult (rev : revision) (ms : list (string * json)) :
  forall (r e : option value) (v' : value) (err : option decodeError),
    decodeMembers (MetaResult_type rev) ms (VStruct [VPtr r; VPtr e]) = (v', err) ->
    idUnset r -> errorIDUnset e ->
    exists r' e',
      v' = VStruct [VPtr r'; VPtr e'] /\
      (is_Some e' <->
       is_Some e \/ existsb (fun kv => touchesError rev (fst kv)) ms = true) /\
      idUnset r' /\ errorIDUnset e'.
Proof.
  induction ms as [| [key jv] ms IH]; intros r e v' err.
  - simpl. intros [= <- <-] Hr He. exists r, e. split; [reflexivity |].
    split; [| auto].
    split; [auto | intros [H | H]; [exact H | discriminate]].
  - cbn [decodeMembers existsb fst]. unfold touchesError at 1.
    destruct (findField (typeFields (MetaResult_type rev)) key) as [f |] eqn:Hf.
    + assert (Hin : In f (typeFields (MetaResult_type rev))).
      { unfold findField in Hf.
        destruct (List.find (sameName key) _) eqn:E1.
        - injection Hf as <-. exact (proj1 (find_some _ _ E1)).
        - exact (proj1 (find_some _ _ Hf)). }
      destruct (typeFields_MetaResult_index rev f Hin)
        as [(b & Hi & Hb) | (b & Hi & Hb)]; rewrite Hi.
      * destruct (storeAt_Result rev b r e (decode jv)) as (sv & e1 & -> & Hsv).
        destruct (decodeMembers _ ms _) as [v2 e2] eqn:E2.
        intros [= <- <-] Hr He.
        destruct (IH _ _ _ _ E2 (idUnset_stored rev r sv Hr (Hsv 0%nat (not_eq_sym Hb))) He)
          as (r' & e' & -> & Hiff & Hr' & He').
        exists r', e'. split; [reflexivity |]. split; [| auto]. simpl. exact Hiff.
      * destruct (storeAt_Error rev b r e (decode jv)) as (sv & e1 & -> & Hsv).
        destruct (decodeMembers _ ms _) as [v2 e2] eqn:E2.
        intros [= <- <-] Hr He.
        destruct (IH _ _ _ _ E2 Hr (errorIDUnset_stored e sv He (Hsv 2%nat (not_eq_sym Hb))))
          as (r' & e' & -> & Hiff & Hr' & He').
        exists r', e'. split; [reflexivity |]. split; [| auto]. simpl.
        split; [auto |]. intros _. apply Hiff. left. eauto.
    + destruct (decodeMembers _ ms _) as [v2 e2] eqn:E2.
      intros [= <- <-] Hr He.
      destruct (IH _ _ _ _ E2 Hr He) as (r' & e' & -> & Hiff & Hr' & He').
      exists r', e'. split; [reflexivity |]. split; [| auto]. simpl. exact Hiff.
Qed.

(** A document stored without error into a nil [*MetaResult] is [null],
    which leaves the pointer nil, or an object, which leaves it pointing
    to a struct whose [Error] is non-nil exactly when some key names
    [error_code] or [error], and in which no [ID] has been stored. *)
Lemma decode_MetaResult (rev : revision) (j : json) (v : value) :
  decode j (KPtr (MetaResult_type rev)) (VPtr None) = (v, None) ->
  j = JNull /\ v = VPtr None \/
  exists ms r e,
    j = JObject ms /\ v = VPtr (Some (VStruct [VPtr r; VPtr e])) /\
    (is_Some e <-> existsb (fun kv => namesErrorField (fst kv)) ms = true) /\
    idUnset r /\ errorIDUnset e.
Proof.
  destruct j as [| b | lit | s | js | ms].
  - intros [= <-]. left. split; reflexivity.
  - intros [=].
  - intros [=].
  - intros [=].
  - intros [=].
  - unfold MetaResult_type.
    change (decode (JObject ms) (KPtr (KStruct "MetaResult" ?fs)) (VPtr None))
      with (let '(v, err) :=
              decode (JObject ms) (MetaResult_type rev) (VStruct [VPtr None; VPtr None]) in
            (VPtr (Some v), err)).
    unfold MetaResult_type at 1. rewrite decode_object_struct.
    fold (MetaResult_type rev).
    destruct (decodeMembers _ ms _) as [v' err] eqn:E. intros [= <- ->].
    assert (Hr0 : idUnset None) by (intros x [=]).
    assert (He0 : errorIDUnset None) by (intros x [=]).
    destruct (decodeMembers_MetaResult rev ms _ _ _ _ E Hr0 He0)
      as (r & e & -> & Hiff & Hr & He).
    rewrite existsb_touchesError in Hiff.
    right. exists ms, r, e. split; [reflexivity |]. split; [reflexivity |].
    split; [| auto]. split.
    + intros Hs. apply Hiff in Hs as [[? [=]] | Hs]. exact Hs.
    + intros Hs. apply Hiff. right. exact Hs.
Qed.

(** The same, for [decodeMetaResult]. *)
Lemma decodeMetaResult_ok (rev : revision) (b : string) (mr : option MetaResult) :
  decodeMetaResult rev b = (mr, None) ->
  parse b = Some JNull /\ mr = None \/
  exists ms m,
    parse b = Some (JObject ms) /\ mr = Some m /\
    (is_Some (MetaResult_Error m)
     <-> existsb (fun kv => namesErrorField (fst kv)) ms = true) /\
    (forall res, MetaResult_Result m = Some res -> Result_ID res = 0) /\
    (forall err, MetaResult_Error m = Some err -> Error_ID err = None).
Proof.
  unfold decodeMetaResult, Unmarshal.
  destruct (parse b) as [j |]; [| intros [=]].
  destruct (decode j _ _) as [v err] eqn:E.
  destruct err as [err |]; [intros [=] |].
  intros [= <-].
  destruct (decode_MetaResult rev j v E)
    as [[-> ->] | (ms & r & e & -> & -> & Hiff & Hr & He)].
  - left. split; reflexivity.
  - right. exists ms. eexists. split; [reflexivity |]. split; [reflexivity |].
    simpl. split; [| split].
    + rewrite <- Hiff. destruct e; simpl; split; intros [x Hx]; eauto; discriminate.
    + intros res Hres. destruct r as [x |]; [| discriminate].
      injection Hres as <-. exact (Hr x eq_refl).
    + intros err Herr. destruct e as [x |]; [| discriminate].
      injection Herr as <-. exact (He x eq_refl).
Qed.

(** *** Properties: the end of [Send] *)

(** A nil option makes [Send] panic before anything is posted. *)
Lemma Send_nil_Opt (rev : revision) (c : Client) (text : string)
  (phones : list string) (cs : list Cost) (rest : list Opt) (log : list request) :
  Send rev c text phones (map WithCost cs ++ None :: rest) log
  = (Panicked NilFuncCall, log).
Proof.
  unfold Send.
  assert (H : forall m, applyOpts (map WithCost cs ++ None :: rest) m = Panicked NilFuncCall).
  { induction cs as [| k cs IH]; intros m; [reflexivity | apply IH]. }
  rewrite H. reflexivity.
Qed.

(** With a transport that serves [b], [Send] comes to [respond b]. *)
Lemma Send_serving (rev : revision) (u l p b text : string) (phones : list string)
  (cs : list Cost) (log : list request) :
  fst (Send rev {| url := u; login := l; password := p; http := serving b |}
         text phones (map WithCost cs) log)
  = respond rev b.
Proof. rewrite Send_WithCost. reflexivity. Qed.

(** [respond] panics on the bodies that are the JSON literal [null], and
    on no other. *)
Lemma respond_panics_iff (rev : revision) (b : string) (p : panic) :
  respond rev b = Panicked p <-> p = NilPointerDereference /\ parse b = Some JNull.
Proof.
  unfold respond.
  destruct (decodeMetaResult rev b) as [mr err] eqn:E.
  destruct err as [err |].
  - split; [intros [=] |]. intros [_ Hp].
    unfold decodeMetaResult, Unmarshal in E. rewrite Hp in E. discriminate E.
  - destruct (decodeMetaResult_ok rev b mr E) as [[Hp ->] | (ms & m & Hp & -> & _)].
    + split; [intros [= <-]; auto | intros [-> _]; reflexivity].
    + split.
      * destruct (MetaResult_Error m); intros [=].
      * intros [_ Hp']. congruence.
Qed.

(** With cost options, [Send] panics exactly when the transport delivers
    a body that is the JSON literal [null]. *)
Lemma Send_panics_iff (rev : revision) (c : Client) (text : string)
  (phones : list string) (cs : list Cost) (log : list request) (p : panic) :
  fst (Send rev c text phones (map WithCost cs) log) = Panicked p
  <-> exists b,
        PostForm (http c) (url c) (Values (sentMessage c text phones cs)) = Body b /\
        parse b = Some JNull /\ p = NilPointerDereference.
Proof.
  rewrite Send_WithCost. simpl.
  destruct (PostForm _ _ _) as [reason | reason | b].
  - split; [intros [=] | intros (b & [=] & _)].
  - split; [intros [=] | intros (b & [=] & _)].
  - rewrite respond_panics_iff. split.
    + intros [-> Hp]. exists b. auto.
    + intros (b' & [= <-] & Hp & ->). auto.
Qed.

(** Whatever the body, the result that [respond] returns has the ID 0
    and the error it returns has no ID: the key [id] is never stored. *)
Lemma respond_ID_lost (rev : revision) (b : string)
  (r : option Result) (e : option error) :
  respond rev b = Returned (r, e) ->
  (forall res, r = Some res -> Result_ID res = 0) /\
  (forall err, e = Some (ApiError err) -> Error_ID err = None).
Proof.
  unfold respond.
  destruct (decodeMetaResult rev b) as [mr err] eqn:E.
  destruct err as [err |].
  - intros [= <- <-]. split; [intros res [=] | intros x [=]].
  - destruct (decodeMetaResult_ok rev b mr E)
      as [[_ ->] | (ms & m & _ & -> & _ & Hres & Herr)]; [intros [=] |].
    destruct (MetaResult_Error m) as [er |] eqn:Her.
    + intros [= <- <-]. split; [intros res [=] |].
      intros x [= <-]. exact (Herr er eq_refl).
    + intros [= <- <-]. split; [exact Hres | intros x [=]].
Qed.

(** C2: the code at the body [null]: the document is valid, the pointer
    [mr] stays nil, no error is reported, and [mr.Error] panics; [Send]
    does not return. *)
Theorem Send_null_body_panics (rev : revision) (u l p text : string)
  (phones : list string) (cs : list Cost) (log : list request) :
  decodeMetaResult rev nullBody = (None, None) /\
  fst (Send rev {| url := u; login := l; password := p; http := serving nullBody |}
         text phones (map WithCost cs) log)
  = Panicked NilPointerDereference.
Proof.
  rewrite Send_serving. destruct rev; split; vm_compute; reflexivity.
Qed.

(** C7: the code at the success body of the example: the result is
    returned with a nil error, cost and balance are as in the body, the
    count is 2 where the tag is [cnt] (0 where it is [count]), and the ID
    is 0, not 5: the key [id] has no field in the merged struct. *)
Theorem Send_success_body_loses_id (rev : revision) (u l p text : string)
  (phones : list string) (cs : list Cost) (log : list request) :
  fst (Send rev {| url := u; login := l; password := p; http := serving successBody |}
         text phones (map WithCost cs) log)
  = Returned
      (Some {| Result_ID := 0;
               Result_Count := match rev with CountRevision => 0 | CntRevision => 2 end;
               Result_Cost := Some "1.00";
               Result_Balance := Some "99.00";
               Result_Phones := None |},
       None).
Proof.
  rewrite Send_serving. destruct rev; vm_compute; reflexivity.
Qed.

(** [Error.Error]: the code and the description, then the ID clause
    exactly when the ID is present. *)
Lemma Error_Error_render (e : Error) :
  let base := "ERROR = " +:+ FormatInt (Error_Code e) +:+ " (" +:+ Error_Desc e +:+ ")" in
  (Error_ID e = None -> Error_Error e = base) /\
  (forall id, Error_ID e = Some id ->
     Error_Error e = base +:+ ", ID - " +:+ FormatInt id).
Proof.
  unfold Error_Error. split.
  - intros ->. reflexivity.
  - intros id ->. reflexivity.
Qed.

Lemma Error_Error_with_ID :
  Error_Error {| Error_Code := 9; Error_Desc := "x"; Error_ID := Some 42 |}
  = "ERROR = 9 (x), ID - 42" /\
  occursIn ", ID - 42"
    (Error_Error {| Error_Code := 9; Error_Desc := "x"; Error_ID := Some 42 |}) = true.
Proof. split; vm_compute; reflexivity. Qed.

(** The error body with a null id decodes and renders as the example
    says. *)
Lemma Send_error_body_null_id (rev : revision) (u l p text : string)
  (phones : list string) (cs : list Cost) (log : list request) :
  fst (Send rev {| url := u; login := l; password := p; http := serving errorBodyNullID |}
         text phones (map WithCost cs) log)
  = Returned
      (None,
       Some (ApiError {| Error_Code := 3; Error_Desc := "bad login"; Error_ID := None |}))
  /\ Error_Error {| Error_Code := 3; Error_Desc := "bad login"; Error_ID := None |}
     = "ERROR = 3 (bad login)".
Proof.
  rewrite Send_serving. destruct rev; split; vm_compute; reflexivity.
Qed.

(** C9: the code at the error body with the id 42: the error returned
    has code 9 and description [x] but a nil ID, and renders as
    [ERROR = 9 (x)], without the ID clause. *)
Theorem Send_error_body_loses_id (rev : revision) (u l p text : string)
  (phones : list string) (cs : list Cost) (log : list request) :
  exists e : Error,
    fst (Send rev {| url := u; login := l; password := p; http := serving errorBodyWithID |}
           text phones (map WithCost cs) log)
    = Returned (None, Some (ApiError e)) /\
    e = {| Error_Code := 9; Error_Desc := "x"; Error_ID := None |} /\
    Error_Error e = "ERROR = 9 (x)" /\
    occursIn ", ID - 42" (Error_Error e) = false.
Proof.
  exists {| Error_Code := 9; Error_Desc := "x"; Error_ID := None |}.
  rewrite Send_serving. destruct rev; repeat split; vm_compute; reflexivity.
Qed.

(** C10: the empty object is a well-formed body for which [Send] returns
    a nil result together with a nil error. *)
Theorem Send_empty_object_nil_nil (rev : revision) (u l p text : string)
  (phones : list string) (cs : list Cost) (log : list request) :
  parse emptyObjectBody = Some (JObject []) /\
  fst (Send rev {| url := u; login := l; password := p; http := serving emptyObjectBody |}
         text phones (map WithCost cs) log)
  = Returned (None, None).
Proof.
  rewrite Send_serving. destruct rev; split; vm_compute; reflexivity.
Qed.




(** *** Further properties: options and requests *)

(** The option loop composes: applying [o1 ++ o2] is applying [o1] and
    then [o2] to what it leaves; after a panic nothing more is applied. *)
Theorem applyOpts_app (o1 o2 : list Opt) (m : message) :
  applyOpts (o1 ++ o2) m
  = match applyOpts o1 m with
    | Returned m' => applyOpts o2 m'
    | Panicked p => Panicked p
    end.
Proof.
  revert m. induction o1 as [| [f |] o1 IH]; intros m; simpl; auto.
Qed.

Lemma applyOpts_panics_iff (opts : list Opt) (m : message) :
  (exists p, applyOpts opts m = Panicked p) <-> In None opts.
Proof.
  revert m. induction opts as [| [f |] opts IH]; intros m; simpl.
  - split; [intros [p [=]] | intros []].
  - rewrite IH. split; [auto | intros [[=] | H]; exact H].
  - split; [auto | intros _; eauto].
Qed.

(** Whatever the options and whatever the transport answers, [Send]
    makes one request, to the client's URL, and no more; unless one of
    the options is nil, in which case it panics before any request. *)
Theorem Send_posts_at_most_once (rev : revision) (c : Client) (text : string)
  (phones : list string) (opts : list Opt) (log : list request) :
  (In None opts /\
   Send rev c text phones opts log = (Panicked NilFuncCall, log)) \/
  (~ In None opts /\
   exists form, snd (Send rev c text phones opts log)
                = log ++ [{| reqURL := url c; reqForm := form |}]).
Proof.
  unfold Send.
  destruct (applyOpts opts (newMessage c text phones)) as [m | p] eqn:E.
  - right. split.
    + intros Hin. apply (applyOpts_panics_iff opts (newMessage c text phones)) in Hin.
      destruct Hin as [p Hp]. congruence.
    + exists (Values m). simpl. unfold bind, post.
      destruct (PostForm _ _ _); reflexivity.
  - left. split.
    + apply (applyOpts_panics_iff opts (newMessage c text phones)). eauto.
    + assert (p = NilFuncCall) as ->; [| reflexivity].
      clear -E. revert E. generalize (newMessage c text phones).
      induction opts as [| [f |] opts IH]; intros m; simpl; [intros [=] | apply IH |].
      intros [= <-]. reflexivity.
Qed.

(** The form of a message has the four keys [login], [psw], [mes] and
    [phones], the key [fmt] unless the format is zero, the key [cost]
    unless the cost is zero, and no other key. *)
Theorem Values_keys (m : message) :
  dom (Values m)
  = ({[ "login"; "psw"; "mes"; "phones" ]} : gset string)
      ∪ (if message_Format m =? 0 then ∅ else {[ "fmt" ]})
      ∪ (if message_Cost m =? 0 then ∅ else {[ "cost" ]}).
Proof.
  unfold Values, url_Set.
  destruct (message_Format m =? 0), (message_Cost m =? 0);
    rewrite ?dom_insert_L, dom_empty_L; set_solver.
Qed.

Lemma FormatInt_inj (a b : Z) : FormatInt a = FormatInt b -> a = b.
Proof.
  intros H. pose proof (FormatInt_decimal a) as Ha.
  rewrite H, FormatInt_decimal in Ha. congruence.
Qed.

(** Two messages with the same form are the same message: the form
    loses nothing of the message. *)
Theorem Values_inj (m m' : message) : Values m = Values m' -> m = m'.
Proof.
  intros H.
  pose proof (f_equal (fun v => v !! "login") H) as Hl.
  pose proof (f_equal (fun v => v !! "psw") H) as Hp.
  pose proof (f_equal (fun v => v !! "mes") H) as Ht.
  pose proof (f_equal (fun v => v !! "phones") H) as Hph.
  pose proof (f_equal (fun v => v !! "fmt") H) as Hf.
  pose proof (f_equal (fun v => v !! "cost") H) as Hc.
  simpl in *.
  rewrite !Values_login in Hl. rewrite !Values_psw in Hp. rewrite !Values_mes in Ht.
  rewrite !Values_phones in Hph. rewrite !Values_fmt in Hf. rewrite !Values_cost in Hc.
  assert (message_Format m = message_Format m') as Hfmt.
  { destruct (Z.eqb_spec (message_Format m) 0), (Z.eqb_spec (message_Format m') 0);
      try congruence. injection Hf. apply FormatInt_inj. }
  assert (message_Cost m = message_Cost m') as Hcost.
  { destruct (Z.eqb_spec (message_Cost m) 0), (Z.eqb_spec (message_Cost m') 0);
      try congruence. injection Hc. apply FormatInt_inj. }
  apply message_ext; [| exact Hcost].
  repeat split; congruence.
Qed.

Lemma Values_inj_witness :
  assignCost CostCount (newMessage sampleClient "hello" ["79990001122"])
  = sentMessage sampleClient "hello" ["79990001122"] [CostWithoutSend; CostCount].
Proof.
  apply (Values_inj
           (assignCost CostCount (newMessage sampleClient "hello" ["79990001122"]))
           (sentMessage sampleClient "hello" ["79990001122"] [CostWithoutSend; CostCount])).
  reflexivity.
Defined.

(** A client that [New] built sends to the URL of the configuration (the
    default one if that is empty), through its transport (the default
    one if that is nil), with its login and its password, which are then
    not empty. *)
Theorem New_then_Send (dc : http_Client) (rev : revision) (cfg : Config)
  (text : string) (phones : list string) (cs : list Cost) (log : list request)
  (c : Client) :
  fst (New dc cfg log) = (Some c, None) ->
  let target := if isEmpty (Config_URL cfg) then DefaultURL else Config_URL cfg in
  let transport := default dc (Config_Client cfg) in
  exists form : url_Values,
    Send rev c text phones (map WithCost cs) (snd (New dc cfg log))
    = (answered rev (PostForm transport target form),
       log ++ [{| reqURL := target; reqForm := form |}]) /\
    form !! "login" = Some [Config_Login cfg] /\
    form !! "psw" = Some [Config_Password cfg] /\
    Config_Login cfg <> EmptyString /\ Config_Password cfg <> EmptyString.
Proof.
  unfold New, ret.
  destruct (isEmpty (Config_Login cfg)) eqn:Hl; [intros [=] |].
  destruct (isEmpty (Config_Password cfg)) eqn:Hp; [intros [=] |].
  simpl. intros [= <-].
  exists (Values (sentMessage
                    {| url := if isEmpty (Config_URL cfg) then DefaultURL else Config_URL cfg;
                       login := Config_Login cfg; password := Config_Password cfg;
                       http := default dc (Config_Client cfg) |} text phones cs)).
  rewrite Send_WithCost. simpl.
  rewrite Values_login, Values_psw. simpl.
  apply isEmpty_false in Hl. apply isEmpty_false in Hp.
  repeat split; auto.
Qed.

Lemma New_then_Send_witness :
  exists form : url_Values,
    Send CntRevision sampleClient "hello" ["79990001122"] (map WithCost [])
      (snd (New sampleTransport (sampleConfig "alice" "secret") []))
    = (answered CntRevision (PostForm sampleTransport DefaultURL form),
       [{| reqURL := DefaultURL; reqForm := form |}]) /\
    form !! "login" = Some ["alice"] /\
    form !! "psw" = Some ["secret"] /\
    "alice" <> EmptyString /\ "secret" <> EmptyString.
Proof.
  apply (New_then_Send sampleTransport CntRevision (sampleConfig "alice" "secret")
           "hello" ["79990001122"] [] [] sampleClient).
  reflexivity.
Defined.

(** *** Further properties: what [Send] returns *)

Lemma Send_Body (rev : revision) (c : Client) (text : string)
  (phones : list string) (cs : list Cost) (log : list request) (b : string) :
  PostForm (http c) (url c) (Values (sentMessage c text phones cs)) = Body b ->
  fst (Send rev c text phones (map WithCost cs) log) = respond rev b.
Proof. intros H. rewrite Send_WithCost, H. reflexivity. Qed.

(** [Send] never returns both a result and an error, whatever the
    options and the answer of the transport. *)
Theorem Send_never_both (rev : revision) (c : Client) (text : string)
  (phones : list string) (opts : list Opt) (log : list request)
  (r : option Result) (e : option error) :
  fst (Send rev c text phones opts log) = Returned (r, e) -> r = None \/ e = None.
Proof.
  unfold Send.
  destruct (applyOpts opts (newMessage c text phones)) as [m | p]; [| intros [=]].
  simpl. unfold bind, post.
  destruct (PostForm _ _ _) as [reason | reason | b]; simpl;
    try (intros [= <- <-]; left; reflexivity).
  unfold respond. destruct (decodeMetaResult rev b) as [mr [err |]].
  - intros [= <- <-]. left; reflexivity.
  - destruct mr as [mr |]; [| intros [=]].
    destruct (MetaResult_Error mr); intros [= <- <-]; auto.
Qed.

Lemma Send_never_both_witness :
  (None : option Result) = None \/
  Some (ApiError {| Error_Code := 3; Error_Desc := "bad login"; Error_ID := None |}) = None.
Proof.
  apply (Send_never_both CntRevision (servedBy errorBodyNullID) "hello" [] [] []).
  vm_compute. reflexivity.
Defined.

(** When the post fails, or the body cannot be read, [Send] returns no
    result and an error whose text is the package prefix followed by the
    text of the failure. *)
Theorem Send_transport_failure (jsonErrorText : jsonError -> string)
  (rev : revision) (c : Client) (text : string) (phones : list string)
  (cs : list Cost) (log : list request) (reason : string) :
  PostForm (http c) (url c) (Values (sentMessage c text phones cs)) = PostFailed reason \/
  PostForm (http c) (url c) (Values (sentMessage c text phones cs)) = ReadFailed reason ->
  exists err : error,
    fst (Send rev c text phones (map WithCost cs) log) = Returned (None, Some err) /\
    errorText jsonErrorText err = "smsc: " +:+ reason.
Proof.
  intros H. rewrite Send_WithCost. simpl.
  destruct H as [-> | ->]; eexists; split; reflexivity.
Qed.

Lemma Send_transport_failure_witness :
  exists err : error,
    fst (Send CntRevision
           {| url := DefaultURL; login := "alice"; password := "secret";
              http := failing "connection refused" |}
           "hello" ["79990001122"] (map WithCost []) [])
    = Returned (None, Some err) /\
    errorText (fun _ => EmptyString) err = "smsc: connection refused".
Proof.
  apply (Send_transport_failure (fun _ => EmptyString) CntRevision
           {| url := DefaultURL; login := "alice"; password := "secret";
              http := failing "connection refused" |}
           "hello" ["79990001122"] [] [] "connection refused").
  left. reflexivity.
Defined.

(** A body that is not a JSON text gives a wrapped syntax error; a body
    that is a JSON text other than [null] or an object (an array, a
    string, a number, a boolean) gives a wrapped type error; in both
    cases no result is returned. *)
Theorem Send_body_not_object (rev : revision) (c : Client) (text : string)
  (phones : list string) (cs : list Cost) (log : list request) (b : string) :
  PostForm (http c) (url c) (Values (sentMessage c text phones cs)) = Body b ->
  (parse b = None ->
   fst (Send rev c text phones (map WithCost cs) log)
   = Returned (None, Some (Wrapped (DecodeFailure SyntaxError)))) /\
  (forall j, parse b = Some j -> j <> JNull -> (forall ms, j <> JObject ms) ->
   exists e,
     fst (Send rev c text phones (map WithCost cs) log)
     = Returned (None, Some (Wrapped (DecodeFailure (TypeError e))))).
Proof.
  intros Hpost. rewrite (Send_Body rev c text phones cs log b Hpost).
  unfold respond, decodeMetaResult, Unmarshal. split.
  - intros ->. reflexivity.
  - intros j -> Hnull Hobj.
    destruct j as [| x | lit | s | js | ms];
      [congruence | | | | | exfalso; exact (Hobj ms eq_refl)];
      eexists; reflexivity.
Qed.

Lemma Send_body_not_object_witness :
  fst (Send CntRevision (servedBy "<html>") "hello" [] (map WithCost []) [])
  = Returned (None, Some (Wrapped (DecodeFailure SyntaxError))).
Proof.
  apply (proj1 (Send_body_not_object CntRevision (servedBy "<html>") "hello" [] [] []
                  "<html>" eq_refl)).
  vm_compute. reflexivity.
Defined.

(** An error that [Send] returns comes with no result, and is either the
    provider's structured error or an error whose text starts with the
    package prefix. *)
Theorem Send_error_text_prefix (jsonErrorText : jsonError -> string)
  (rev : revision) (c : Client) (text : string) (phones : list string)
  (opts : list Opt) (log : list request) (r : option Result) (err : error) :
  fst (Send rev c text phones opts log) = Returned (r, Some err) ->
  r = None /\
  ((exists e, err = ApiError e) \/
   hasPrefix "smsc: " (errorText jsonErrorText err) = true).
Proof.
  unfold Send.
  destruct (applyOpts opts (newMessage c text phones)) as [m | p]; [| intros [=]].
  simpl. unfold bind, post.
  destruct (PostForm _ _ _) as [reason | reason | b]; simpl;
    try (intros [= <- <-]; split; [reflexivity | right; reflexivity]).
  unfold respond. destruct (decodeMetaResult rev b) as [mr [e |]].
  - intros [= <- <-]. split; [reflexivity | right; reflexivity].
  - destruct mr as [mr |]; [| intros [=]].
    destruct (MetaResult_Error mr); intros [= <- <-]. split; [reflexivity | left; eauto].
Qed.

Lemma Send_error_text_prefix_witness :
  (None : option Result) = None /\
  ((exists e, Wrapped (DecodeFailure SyntaxError) = ApiError e) \/
   hasPrefix "smsc: "
     (errorText (fun _ => "unexpected end of JSON input")
        (Wrapped (DecodeFailure SyntaxError))) = true).
Proof.
  apply (Send_error_text_prefix (fun _ => "unexpected end of JSON input") CntRevision
           (servedBy EmptyString) "hello" [] [] []).
  vm_compute. reflexivity.
Defined.

(** Whatever the transport answers, a result that [Send] returns has the
    ID 0, so that its text ends with [ID - 0], and an error of the
    provider that [Send] returns has no ID, so that its text has no ID
    clause: the key [id] of the body is never stored. *)
Theorem Send_never_decodes_id (rev : revision) (c : Client) (text : string)
  (phones : list string) (cs : list Cost) (log : list request)
  (r : option Result) (e : option error) :
  fst (Send rev c text phones (map WithCost cs) log) = Returned (r, e) ->
  (forall res, r = Some res ->
     Result_ID res = 0 /\
     Result_String res = "OK - " +:+ FormatInt (Result_Count res) +:+ " SMS, ID - 0") /\
  (forall err, e = Some (ApiError err) ->
     Error_ID err = None /\
     Error_Error err
     = "ERROR = " +:+ FormatInt (Error_Code err) +:+ " (" +:+ Error_Desc err +:+ ")").
Proof.
  rewrite Send_WithCost. simpl.
  destruct (PostForm _ _ _) as [reason | reason | b].
  - intros [= <- <-]. split; [intros res [=] | intros err [=]].
  - intros [= <- <-]. split; [intros res [=] | intros err [=]].
  - intros H. destruct (respond_ID_lost rev b r e H) as [Hres Herr]. split.
    + intros res Hr. pose proof (Hres res Hr) as Hid. split; [exact Hid |].
      unfold Result_String. rewrite Hid. reflexivity.
    + intros err He. pose proof (Herr err He) as Hid. split; [exact Hid |].
      unfold Error_Error. rewrite Hid. reflexivity.
Qed.

Lemma Send_never_decodes_id_witness :
  Result_String {| Result_ID := 0; Result_Count := 2; Result_Cost := Some "1.00";
                   Result_Balance := Some "99.00"; Result_Phones := None |}
  = "OK - " +:+ FormatInt 2 +:+ " SMS, ID - 0".
Proof.
  refine (proj2 (proj1 (Send_never_decodes_id CntRevision (servedBy successBody) "hello"
                          ["79990001122"] [] []
                          (Some {| Result_ID := 0; Result_Count := 2;
                                   Result_Cost := Some "1.00";
                                   Result_Balance := Some "99.00";
                                   Result_Phones := None |})
                          None _) _ eq_refl)).
  vm_compute. reflexivity.
Defined.

(** For a body that is an object and decodes without error, [Send]
    returns the provider's structured error exactly when some key of the
    object names [error_code] or [error]. *)
Theorem Send_error_iff_key (rev : revision) (c : Client) (text : string)
  (phones : list string) (cs : list Cost) (log : list request)
  (b : string) (ms : list (string * json)) :
  PostForm (http c) (url c) (Values (sentMessage c text phones cs)) = Body b ->
  parse b = Some (JObject ms) ->
  snd (decodeMetaResult rev b) = None ->
  ((exists err, fst (Send rev c text phones (map WithCost cs) log)
                = Returned (None, Some (ApiError err)))
   <-> existsb (fun kv => namesErrorField (fst kv)) ms = true).
Proof.
  intros Hpost Hparse Hok. rewrite (Send_Body rev c text phones cs log b Hpost).
  unfold respond.
  destruct (decodeMetaResult rev b) as [mr err] eqn:E. simpl in Hok. subst err.
  destruct (decodeMetaResult_ok rev b mr E)
    as [[Hp _] | (ms' & m & Hp & -> & Hiff & _)]; [congruence |].
  assert (ms' = ms) as -> by congruence.
  rewrite <- Hiff.
  destruct (MetaResult_Error m) as [er |]; split.
  - intros _. eauto.
  - intros _. eauto.
  - intros [err [=]].
  - intros [x [=]].
Qed.

Lemma Send_error_iff_key_witness :
  (exists err, fst (Send CntRevision (servedBy (quoted "{'Error':'no money'}")) "hello" []
                      (map WithCost []) [])
               = Returned (None, Some (ApiError err)))
  <-> existsb (fun kv => namesErrorField (fst kv)) [("Error", JString "no money")] = true.
Proof.
  apply (Send_error_iff_key CntRevision (servedBy (quoted "{'Error':'no money'}")) "hello" []
           [] [] (quoted "{'Error':'no money'}")).
  - reflexivity.
  - vm_compute. reflexivity.
  - vm_compute. reflexivity.
Defined.

(** *** Further properties: documents and what they decode to *)

Lemma parseInt_FormatInt (n : Z) :
  minInt <= n <= maxInt -> parseInt (FormatInt n) = Some n.
Proof.
  intros [Hlo Hhi]. unfold parseInt.
  pose proof (FormatInt_decimal n) as H. unfold decimalValue in H.
  destruct (NilZero.int_of_string (FormatInt n)) as [d |]; [| discriminate].
  simpl in H. injection H as ->.
  apply Z.leb_le in Hlo. apply Z.leb_le in Hhi. rewrite Hlo, Hhi. reflexivity.
Qed.

(** What [decodeMetaResult] does with an object. *)
Lemma decodeMetaResult_object (rev : revision) (b : string) (ms : list (string * json)) :
  parse b = Some (JObject ms) ->
  decodeMetaResult rev b
  = let '(v, err) :=
      decodeMembers (MetaResult_type rev) ms (VStruct [VPtr None; VPtr None]) in
    (Some (MetaResult_of v), TypeError <$> err).
Proof.
  intros Hp. unfold decodeMetaResult, Unmarshal. rewrite Hp.
  unfold MetaResult_type.
  change (decode (JObject ms) (KPtr (KStruct "MetaResult" ?fs)) (VPtr None))
      with (let '(v, err) :=
              decode (JObject ms) (MetaResult_type rev) (VStruct [VPtr None; VPtr None]) in
            (VPtr (Some v), err)).
  unfold MetaResult_type at 1. rewrite decode_object_struct.
  fold (MetaResult_type rev).
  destruct (decodeMembers _ ms _) as [v err]. reflexivity.
Qed.

Ltac find_fields :=
  repeat match goal with
  | |- context [findField ?l ?k] =>
      let v := eval vm_compute in (findField l k) in change (findField l k) with v
  end.

(** For every count in the range of [int] and every cost and balance, a
    body whose document is the object of the count, the cost and the
    balance is returned as the result with these values (and the ID 0),
    with a nil error. *)
Theorem Send_success_document (rev : revision) (c : Client) (text : string)
  (phones : list string) (cs : list Cost) (log : list request)
  (b : string) (n : Z) (cost balance : string) :
  PostForm (http c) (url c) (Values (sentMessage c text phones cs)) = Body b ->
  parse b = Some (JObject [(countKey rev, JNumber (FormatInt n));
                           ("cost", JString cost);
                           ("balance", JString balance)]) ->
  minInt <= n <= maxInt ->
  fst (Send rev c text phones (map WithCost cs) log)
  = Returned (Some {| Result_ID := 0; Result_Count := n;
                      Result_Cost := Some cost; Result_Balance := Some balance;
                      Result_Phones := None |}, None).
Proof.
  intros Hpost Hp Hn. rewrite (Send_Body rev c text phones cs log b Hpost).
  unfold respond. rewrite (decodeMetaResult_object rev b _ Hp).
  destruct rev; cbn [decodeMembers countKey]; find_fields;
    cbn -[parseInt FormatInt]; rewrite (parseInt_FormatInt n Hn); reflexivity.
Qed.

Lemma Send_success_document_witness :
  fst (Send CountRevision
         (servedBy (quoted "{'count': 12, 'cost': '3.50', 'balance': '96.50'}"))
         "hello" ["79990001122"] (map WithCost []) [])
  = Returned (Some {| Result_ID := 0; Result_Count := 12;
                      Result_Cost := Some "3.50"; Result_Balance := Some "96.50";
                      Result_Phones := None |}, None).
Proof.
  apply (Send_success_document CountRevision
           (servedBy (quoted "{'count': 12, 'cost': '3.50', 'balance': '96.50'}"))
           "hello" ["79990001122"] [] []
           (quoted "{'count': 12, 'cost': '3.50', 'balance': '96.50'}") 12 "3.50" "96.50").
  - reflexivity.
  - vm_compute. reflexivity.
  - unfold minInt, maxInt. lia.
Defined.

(** The cost and the balance are optional: when the object has only the
    count, or gives [null] for them, the result has a nil cost and a nil
    balance. *)
Theorem Send_optional_fields (rev : revision) (c : Client) (text : string)
  (phones : list string) (cs : list Cost) (log : list request)
  (b : string) (n : Z) :
  PostForm (http c) (url c) (Values (sentMessage c text phones cs)) = Body b ->
  parse b = Some (JObject [(countKey rev, JNumber (FormatInt n))]) \/
  parse b = Some (JObject [(countKey rev, JNumber (FormatInt n));
                           ("cost", JNull); ("balance", JNull)]) ->
  minInt <= n <= maxInt ->
  fst (Send rev c text phones (map WithCost cs) log)
  = Returned (Some {| Result_ID := 0; Result_Count := n;
                      Result_Cost := None; Result_Balance := None;
                      Result_Phones := None |}, None).
Proof.
  intros Hpost Hp Hn. rewrite (Send_Body rev c text phones cs log b Hpost).
  unfold respond.
  destruct Hp as [Hp | Hp]; rewrite (decodeMetaResult_object rev b _ Hp);
    destruct rev; cbn [decodeMembers countKey]; find_fields;
    cbn -[parseInt FormatInt]; rewrite (parseInt_FormatInt n Hn); reflexivity.
Qed.

Lemma Send_optional_fields_witness :
  fst (Send CntRevision (servedBy (quoted "{'cnt': 1, 'cost': null, 'balance': null}"))
         "hello" ["79990001122"] (map WithCost []) [])
  = Returned (Some {| Result_ID := 0; Result_Count := 1;
                      Result_Cost := None; Result_Balance := None;
                      Result_Phones := None |}, None).
Proof.
  apply (Send_optional_fields CntRevision
           (servedBy (quoted "{'cnt': 1, 'cost': null, 'balance': null}"))
           "hello" ["79990001122"] [] []
           (quoted "{'cnt': 1, 'cost': null, 'balance': null}") 1).
  - reflexivity.
  - right. vm_compute. reflexivity.
  - unfold minInt, maxInt. lia.
Defined.

(** For every code in the range of [int] and every description, a body
    whose document is the object of the code and the description is
    returned as the provider's error with these values and no ID, with a
    nil result. *)
Theorem Send_error_document (rev : revision) (c : Client) (text : string)
  (phones : list string) (cs : list Cost) (log : list request)
  (b : string) (n : Z) (desc : string) :
  PostForm (http c) (url c) (Values (sentMessage c text phones cs)) = Body b ->
  parse b = Some (JObject [("error_code", JNumber (FormatInt n));
                           ("error", JString desc)]) ->
  minInt <= n <= maxInt ->
  fst (Send rev c text phones (map WithCost cs) log)
  = Returned (None, Some (ApiError {| Error_Code := n; Error_Desc := desc;
                                      Error_ID := None |})).
Proof.
  intros Hpost Hp Hn. rewrite (Send_Body rev c text phones cs log b Hpost).
  unfold respond. rewrite (decodeMetaResult_object rev b _ Hp).
  destruct rev; cbn [decodeMembers]; find_fields;
    cbn -[parseInt FormatInt]; rewrite (parseInt_FormatInt n Hn); reflexivity.
Qed.

Lemma Send_error_document_witness :
  fst (Send CntRevision
         (servedBy (quoted "{'error_code': 2, 'error': 'authorise error'}"))
         "hello" ["79990001122"] (map WithCost []) [])
  = Returned (None, Some (ApiError {| Error_Code := 2; Error_Desc := "authorise error";
                                      Error_ID := None |})).
Proof.
  apply (Send_error_document CntRevision
           (servedBy (quoted "{'error_code': 2, 'error': 'authorise error'}"))
           "hello" ["79990001122"] [] []
           (quoted "{'error_code': 2, 'error': 'authorise error'}") 2 "authorise error").
  - reflexivity.
  - vm_compute. reflexivity.
  - unfold minInt, maxInt. lia.
Defined.

(** A count that is not an integer of the range of [int] (a fraction, an
    exponent, a value too large) makes [Send] return no result and the
    wrapped type error of that number, whatever follows in the object. *)
Theorem Send_count_not_int (rev : revision) (c : Client) (text : string)
  (phones : list string) (cs : list Cost) (log : list request)
  (b lit : string) (rest : list (string * json)) :
  PostForm (http c) (url c) (Values (sentMessage c text phones cs)) = Body b ->
  parse b = Some (JObject ((countKey rev, JNumber lit) :: rest)) ->
  parseInt lit = None ->
  fst (Send rev c text phones (map WithCost cs) log)
  = Returned (None,
              Some (Wrapped (DecodeFailure
                               (TypeError (UnmarshalTypeError ("number " +:+ lit)))))).
Proof.
  intros Hpost Hp Hlit. rewrite (Send_Body rev c text phones cs log b Hpost).
  unfold respond. rewrite (decodeMetaResult_object rev b _ Hp).
  destruct rev; cbn [decodeMembers countKey]; find_fields;
    cbn -[parseInt decodeMembers]; rewrite Hlit; unfold mismatch;
    cbn -[parseInt decodeMembers];
    match goal with |- context [decodeMembers ?t rest ?v] =>
      destruct (decodeMembers t rest v) as [v2 e2] end; reflexivity.
Qed.

Lemma Send_count_not_int_witness :
  fst (Send CntRevision (servedBy (quoted "{'cnt': 1e3, 'cost': '1.00'}"))
         "hello" ["79990001122"] (map WithCost []) [])
  = Returned (None,
              Some (Wrapped (DecodeFailure
                               (TypeError (UnmarshalTypeError ("number " +:+ "1e3")))))).
Proof.
  apply (Send_count_not_int CntRevision (servedBy (quoted "{'cnt': 1e3, 'cost': '1.00'}"))
           "hello" ["79990001122"] [] [] (quoted "{'cnt': 1e3, 'cost': '1.00'}") "1e3"
           [("cost", JString "1.00")]).
  - reflexivity.
  - vm_compute. reflexivity.
  - vm_compute. reflexivity.
Defined.

Lemma decodeMembers_app (bt : gtype) (ms1 ms2 : list (string * json)) (v : value) :
  decodeMembers bt (ms1 ++ ms2) v
  = let '(v1, e1) := decodeMembers bt ms1 v in
    let '(v2, e2) := decodeMembers bt ms2 v1 in
    (v2, saveError e1 e2).
Proof.
  revert v. induction ms1 as [| [key jv] ms1 IH]; intros v.
  - simpl. destruct (decodeMembers bt ms2 v). reflexivity.
  - cbn [app decodeMembers].
    destruct (match findField (typeFields bt) key with
              | Some f => storeAt (index f) bt v (decode jv)
              | None => (v, None)
              end) as [v1 e1].
    rewrite IH. destruct (decodeMembers bt ms1 v1) as [v2 e2].
    destruct (decodeMembers bt ms2 v2) as [v3 e3].
    destruct e1, e2; reflexivity.
Qed.

Lemma knownKey_id (rev : revision) : knownKey rev "id" = false.
Proof. destruct rev; vm_compute; reflexivity. Qed.

(** A member whose key names no field of the merged struct (the key
    [id] is one) changes nothing: the body with it and the body without
    it give the same outcome, whatever the value of the member. *)
Theorem Send_ignores_unknown_key (rev : revision) (c c' : Client) (text : string)
  (phones : list string) (cs : list Cost) (log : list request) (b b' : string)
  (ms1 ms2 : list (string * json)) (key : string) (jv : json) :
  PostForm (http c) (url c) (Values (sentMessage c text phones cs)) = Body b ->
  PostForm (http c') (url c') (Values (sentMessage c' text phones cs)) = Body b' ->
  parse b = Some (JObject (ms1 ++ ms2)) ->
  parse b' = Some (JObject (ms1 ++ (key, jv) :: ms2)) ->
  knownKey rev key = false ->
  fst (Send rev c' text phones (map WithCost cs) log)
  = fst (Send rev c text phones (map WithCost cs) log).
Proof.
  intros Hpost Hpost' Hb Hb' Hk.
  rewrite (Send_Body rev c text phones cs log b Hpost).
  rewrite (Send_Body rev c' text phones cs log b' Hpost').
  unfold respond.
  rewrite (decodeMetaResult_object rev b _ Hb), (decodeMetaResult_object rev b' _ Hb').
  rewrite !decodeMembers_app. cbn [decodeMembers].
  unfold knownKey in Hk. apply bool_decide_eq_false in Hk.
  destruct (findField (typeFields (MetaResult_type rev)) key) as [f |] eqn:Hf.
  - exfalso. apply Hk. eauto.
  - destruct (decodeMembers _ ms1 _) as [v1 e1].
    destruct (decodeMembers _ ms2 v1) as [v2 e2]. reflexivity.
Qed.

Lemma Send_ignores_unknown_key_witness :
  fst (Send CntRevision (servedBy (quoted "{'cnt': 2, 'id': 5, 'cost': '1.00'}"))
         "hello" ["79990001122"] (map WithCost []) [])
  = fst (Send CntRevision (servedBy (quoted "{'cnt': 2, 'cost': '1.00'}"))
           "hello" ["79990001122"] (map WithCost []) []).
Proof.
  apply (Send_ignores_unknown_key CntRevision
           (servedBy (quoted "{'cnt': 2, 'cost': '1.00'}"))
           (servedBy (quoted "{'cnt': 2, 'id': 5, 'cost': '1.00'}"))
           "hello" ["79990001122"] [] []
           (quoted "{'cnt': 2, 'cost': '1.00'}")
           (quoted "{'cnt': 2, 'id': 5, 'cost': '1.00'}")
           [("cnt", JNumber "2")] [("cost", JString "1.00")] "id" (JNumber "5")).
  - reflexivity.
  - reflexivity.
  - vm_compute. reflexivity.
  - vm_compute. reflexivity.
  - vm_compute. reflexivity.
Defined.

Lemma decode_array_slice (js : list json) (e : gtype) (v : value) :
  decode (JArray js) (KSlice e) v
  = let '(vs, err) :=
      decodeElems e js (match v with VSlice (Some l) => l | _ => [] end) in
    (VSlice (Some vs), err).
Proof.
  cbn [decode indirect].
  generalize (match v with VSlice (Some l) => l | _ => [] end). intros old.
  assert (H : forall old,
    (fix elems (js0 : list json) (old0 : list value) {struct js0}
       : list value * option decodeError :=
       match js0 with
       | [] => ([], None)
       | j0 :: js' =>
           let '(x, e1) := decode j0 e (hd (zero e) old0) in
           let '(xs, e2) := elems js' (tl old0) in
           (x :: xs, saveError e1 e2)
       end) js old = decodeElems e js old).
  { clear old. induction js as [| j js IH]; intros old; [reflexivity |].
    cbn [decodeElems].
    match goal with
    | |- _ = (let '(_, _) := ?x in _) => destruct x as [x1 e1] eqn:E
    end.
    rewrite <- IH. reflexivity. }
  rewrite H. reflexivity.
Qed.

Lemma decodeElems_phones (ps : list string) :
  decodeElems Phone_type (map phoneDocument ps) []
  = (map (fun p => VStruct [VString p; VString EmptyString; VString EmptyString;
                            VPtr None; VPtr None]) ps, None).
Proof.
  induction ps as [| p ps IH]; [reflexivity |].
  cbn [map decodeElems hd tl]. rewrite IH.
  unfold phoneDocument, Phone_type. rewrite decode_object_struct.
  cbn [decodeMembers]. find_fields. reflexivity.
Qed.

(** In the revision that has them, the per-phone entries of the body
    come back in the result, one [Phone] per entry and in the order of
    the body, for every list of numbers. *)
Theorem Send_phones_document (c : Client) (text : string)
  (phones : list string) (cs : list Cost) (log : list request)
  (b : string) (ps : list string) :
  PostForm (http c) (url c) (Values (sentMessage c text phones cs)) = Body b ->
  parse b = Some (JObject [("phones", JArray (map phoneDocument ps))]) ->
  fst (Send CntRevision c text phones (map WithCost cs) log)
  = Returned (Some {| Result_ID := 0; Result_Count := 0;
                      Result_Cost := None; Result_Balance := None;
                      Result_Phones := Some (map phoneOnly ps) |}, None).
Proof.
  intros Hpost Hp. rewrite (Send_Body CntRevision c text phones cs log b Hpost).
  unfold respond. rewrite (decodeMetaResult_object CntRevision b _ Hp).
  cbn [decodeMembers]. find_fields. cbn -[decode].
  rewrite decode_array_slice, decodeElems_phones. cbn.
  unfold Result_of, sliceOf, fieldOf. cbn. rewrite map_map. reflexivity.
Qed.

Lemma Send_phones_document_witness :
  fst (Send CntRevision
         (servedBy (quoted "{'phones': [{'phone': '79990001122'}, {'phone': '79990003344'}]}"))
         "hello" ["79990001122"; "79990003344"] (map WithCost []) [])
  = Returned (Some {| Result_ID := 0; Result_Count := 0;
                      Result_Cost := None; Result_Balance := None;
                      Result_Phones :=
                        Some (map phoneOnly ["79990001122"; "79990003344"]) |}, None).
Proof.
  apply (Send_phones_document
           (servedBy (quoted "{'phones': [{'phone': '79990001122'}, {'phone': '79990003344'}]}"))
           "hello" ["79990001122"; "79990003344"] [] []
           (quoted "{'phones': [{'phone': '79990001122'}, {'phone': '79990003344'}]}")
           ["79990001122"; "79990003344"]).
  - reflexivity.
  - vm_compute. reflexivity.
Defined.

End Smsc.
